(** * Food diary: offline cache, pending queue and API orchestration

    A shallow embedding of the synchronisation core of [static/js/main.js]
    (the objects [AppCache], [OfflineQueue] and [API]) and the proofs of its
    specified properties.

    The browser is part of the model: [localStorage] is a finite map from
    keys to texts, the clock is a field of the world, [fetch] asks the
    world's remote side for a reply and logs the request.  JavaScript
    exceptions are outcomes of a small state-and-exception monad; the
    [async] functions make a single request each and are run here without
    interleaving. *)

From stdpp Require Import base option list strings gmap pretty.
From Stdlib Require Import Ascii ZArith Lia.

Local Open Scope string_scope.
Local Open Scope list_scope.
Local Open Scope Z_scope.
Set Warnings "-register-all".

(** ** JavaScript values *)

(** The values [JSON.parse] can produce.  Numbers are the integers: the
    core only inspects lengths, identifiers and millisecond time stamps.
    An object keeps its properties in insertion order (property names
    are taken not to be array indices). *)
Inductive json : Type :=
  | JNull
  | JBool (b : bool)
  | JNum (n : Z)
  | JStr (s : string)
  | JArr (items : list json)
  | JObj (fields : list (string * json)).

(** A JavaScript value is a JSON value or [undefined]. *)
Definition jsval : Type := option json.
Definition undefined : jsval := None.

Definition object : Type := list (string * json).

Inductive exn : Type :=
  | TypeError
  | SyntaxError
  | QuotaExceededError
  | Error (message : jsval).

Inductive outcome (A : Type) : Type :=
  | Ret (a : A)
  | Throw (e : exn).
Arguments Ret {A} a.
Arguments Throw {A} e.

(** [fs[k]] on the property list of an object. *)
Fixpoint lookup_field (k : string) (fs : object) : jsval :=
  match fs with
  | [] => undefined
  | (k', x) :: rest => if String.eqb k' k then Some x else lookup_field k rest
  end.

(** [fs[k] = x]: an existing property keeps its place, a new one goes last. *)
Fixpoint update_field (k : string) (x : json) (fs : object) : object :=
  match fs with
  | [] => [(k, x)]
  | (k', y) :: rest =>
      if String.eqb k' k then (k, x) :: rest else (k', y) :: update_field k x rest
  end.

(** [v.k] for the property names the program reads ([length] is the only
    one of them that arrays and strings have). *)
Definition get_prop (v : jsval) (k : string) : outcome jsval :=
  match v with
  | None | Some JNull => Throw TypeError
  | Some (JObj fs) => Ret (lookup_field k fs)
  | Some (JArr items) =>
      Ret (if String.eqb k "length" then Some (JNum (Z.of_nat (length items))) else undefined)
  | Some (JStr s) =>
      Ret (if String.eqb k "length" then Some (JNum (Z.of_nat (String.length s))) else undefined)
  | Some (JBool _) | Some (JNum _) => Ret undefined
  end.

(** [v.k = x] in a classic (non-strict) script, as far as [JSON.stringify]
    and the reads of other properties can tell afterwards: assigning to a
    property of [null] throws, a primitive ignores the assignment, and an
    own property added to an array is not part of its JSON text. *)
Definition set_prop (v : json) (k : string) (x : json) : outcome json :=
  match v with
  | JNull => Throw TypeError
  | JObj fs => Ret (JObj (update_field k x fs))
  | _ => Ret v
  end.

(** Truthiness, [!!v]. *)
Definition truthy (v : jsval) : bool :=
  match v with
  | None | Some JNull => false
  | Some (JBool b) => b
  | Some (JNum n) => negb (n =? 0)
  | Some (JStr s) => negb (String.eqb s "")
  | Some (JArr _) | Some (JObj _) => true
  end.

(** [a === b] where [b] was handed in by the caller and [a] was read from
    a freshly parsed document: primitives compare by value, while an array
    or object of the document is never the caller's. *)
Definition strict_eq (a : jsval) (b : json) : bool :=
  match a, b with
  | Some JNull, JNull => true
  | Some (JBool x), JBool y => Bool.eqb x y
  | Some (JNum x), JNum y => x =? y
  | Some (JStr x), JStr y => String.eqb x y
  | _, _ => false
  end.

Definition join_with (sep : string) (parts : list string) : string :=
  match parts with
  | [] => ""
  | p :: rest => fold_left (fun acc q => acc +:+ sep +:+ q) rest p
  end.

(** [String(v)], also what a template literal makes of [v].  An integer
    is written in plain decimal, as JavaScript does below [10^21]. *)
Fixpoint js_toString (v : json) : string :=
  match v with
  | JNull => "null"
  | JBool true => "true"
  | JBool false => "false"
  | JNum n => pretty n
  | JStr s => s
  | JArr items =>
      join_with ","
        (map (fun x => match x with JNull => "" | _ => js_toString x end) items)
  | JObj _ => "[object Object]"
  end.

(** [s.startsWith(p)]. *)
Definition startsWith (s p : string) : bool := String.prefix p s.

(** ** The host: the parts of the platform whose result is a matter of
    the implementation *)

Class Host : Type := {
  (** [Date.parse]: the time value of a date string, [None] for [NaN]. *)
  Date_parse : string -> option Z;
  (** [Date.prototype.toISOString] of a time value. *)
  toISOString : Z -> string;
  (** [Number(s)] of a string, [None] for [NaN]. *)
  StringToNumber : string -> option Z
}.

(** ** The world *)

(** The text of a storage cell or of a message body, as [JSON.parse] and
    the truthiness test see it: the empty string, a text that is not JSON,
    or the JSON text of a value. *)
Inductive text : Type :=
  | EmptyText
  | Malformed
  | Json (v : json).

Inductive http_method : Type := GET | POST | DELETE.

Record request : Type := {
  req_method : http_method;
  req_url : string;
  req_body : option text
}.

Record response : Type := {
  ok : bool;
  body : text
}.

Record world : Type := {
  (** [localStorage] *)
  storage : gmap string text;
  (** whether [localStorage.setItem key value] is within the quota *)
  accepts : string -> text -> bool;
  (** the clock, in milliseconds since the epoch *)
  clock : Z;
  (** the reply to a request; [None] when the request itself fails *)
  remote : request -> option response;
  (** the requests issued so far, oldest first *)
  sent : list request
}.

Definition with_storage (w : world) (s : gmap string text) : world :=
  {| storage := s; accepts := accepts w; clock := clock w;
     remote := remote w; sent := sent w |}.

Definition with_sent (w : world) (l : list request) : world :=
  {| storage := storage w; accepts := accepts w; clock := clock w;
     remote := remote w; sent := l |}.

(** ** Computations: state and exceptions *)

Definition M (A : Type) : Type := world -> outcome A * world.

#[global] Instance M_ret : MRet M := fun A a w => (Ret a, w).

#[global] Instance M_bind : MBind M := fun A B f m w =>
  match m w with
  | (Ret a, w') => f a w'
  | (Throw e, w') => (Throw e, w')
  end.

Definition throw {A : Type} (e : exn) : M A := fun w => (Throw e, w).

(** [try { m } catch (e) { h e }] *)
Definition try_catch {A : Type} (m : M A) (h : exn -> M A) : M A := fun w =>
  match m w with
  | (Ret a, w') => (Ret a, w')
  | (Throw e, w') => h e w'
  end.

Definition lift {A : Type} (o : outcome A) : M A := fun w => (o, w).

(** Sequencing of computations, [let*], and of pure steps that may throw,
    [let+]. *)
Definition bind {A B : Type} (m : M A) (k : A -> M B) : M B := mbind k m.

Definition and_then {A B : Type} (o : outcome A) (k : A -> outcome B) : outcome B :=
  match o with
  | Ret a => k a
  | Throw e => Throw e
  end.

Notation "'let*' x ':=' m 'in' k" := (bind m (fun x => k))
  (at level 10, x pattern, m at level 100, k at level 200).
Notation "'let+' x ':=' o 'in' k" := (and_then o (fun x => k))
  (at level 10, x pattern, o at level 100, k at level 200).

(** ** Platform operations *)

Definition localStorage_getItem (key : string) : M (option text) :=
  fun w => (Ret (storage w !! key), w).

Definition localStorage_setItem (key : string) (value : text) : M unit :=
  fun w =>
    if accepts w key value
    then (Ret tt, with_storage w (<[key := value]> (storage w)))
    else (Throw QuotaExceededError, w).

Definition localStorage_removeItem (key : string) : M unit :=
  fun w => (Ret tt, with_storage w (delete key (storage w))).

(** A string read from storage is truthy unless it is missing or empty. *)
Definition truthy_text (t : option text) : bool :=
  match t with
  | None | Some EmptyText => false
  | Some Malformed | Some (Json _) => true
  end.

(** [JSON.parse(t)]; the argument [null] is read as the text [null]. *)
Definition JSON_parse (t : option text) : M json :=
  match t with
  | Some (Json v) => mret v
  | None => mret JNull
  | Some EmptyText | Some Malformed => throw SyntaxError
  end.

Definition JSON_stringify (v : json) : text := Json v.

Definition Date_now : M Z := fun w => (Ret (clock w), w).

(** [await fetch(...)]: the request is logged; a request that fails
    rejects. *)
Definition fetch (req : request) : M response := fun w =>
  let w' := with_sent w (sent w ++ [req]) in
  match remote w req with
  | Some r => (Ret r, w')
  | None => (Throw TypeError, w')
  end.

(** [await response.json()] *)
Definition response_json (r : response) : M json := JSON_parse (Some (body r)).

(** ** A reference host

    A host that writes time stamps in the ISO 8601 format
    [YYYY-MM-DDTHH:mm:ss.sssZ] and reads nothing else.  It is the host of
    the worked examples; the theorems hold for every host. *)
Module IsoHost.

Definition ms_per_day : Z := 86400000.

(** The civil date of a day number (days since 1970-01-01). *)
Definition civil_from_days (days : Z) : Z * Z * Z :=
  let z := days + 719468 in
  let era := z / 146097 in
  let doe := z - era * 146097 in
  let yoe := (doe - doe / 1460 + doe / 36524 - doe / 146096) / 365 in
  let doy := doe - (365 * yoe + yoe / 4 - yoe / 100) in
  let mp := (5 * doy + 2) / 153 in
  let d := doy - (153 * mp + 2) / 5 + 1 in
  let m := if mp <? 10 then mp + 3 else mp - 9 in
  let y := yoe + era * 400 in
  (if m <=? 2 then y + 1 else y, m, d).

Definition days_from_civil (y m d : Z) : Z :=
  let y := if m <=? 2 then y - 1 else y in
  let era := y / 400 in
  let yoe := y - era * 400 in
  let doy := (153 * (if 2 <? m then m - 3 else m + 9) + 2) / 5 + d - 1 in
  let doe := yoe * 365 + yoe / 4 - yoe / 100 + doy in
  era * 146097 + doe - 719468.

(** [s.padStart(width, "0")] *)
Definition pad (width : nat) (s : string) : string :=
  Nat.iter (width - String.length s) (String "0"%char) s.

Definition digits (width : nat) (n : Z) : string := pad width (pretty n).

Definition format (t : Z) : string :=
  let '(y, m, d) := civil_from_days (t / ms_per_day) in
  let r := t mod ms_per_day in
  let year :=
    if (0 <=? y) && (y <=? 9999) then digits 4 y
    else if y <? 0 then "-" +:+ digits 6 (- y) else "+" +:+ digits 6 y in
  year +:+ "-" +:+ digits 2 m +:+ "-" +:+ digits 2 d
    +:+ "T" +:+ digits 2 (r / 3600000)
    +:+ ":" +:+ digits 2 (r / 60000 mod 60)
    +:+ ":" +:+ digits 2 (r / 1000 mod 60)
    +:+ "." +:+ digits 3 (r mod 1000) +:+ "Z".

Definition digit_value (c : ascii) : option Z :=
  let n := Z.of_nat (Ascii.nat_of_ascii c) in
  if (48 <=? n) && (n <=? 57) then Some (n - 48) else None.

(** The number written by a string of decimal digits. *)
Fixpoint number_from (acc : Z) (s : string) : option Z :=
  match s with
  | EmptyString => Some acc
  | String c rest =>
      match digit_value c with
      | Some d => number_from (10 * acc + d) rest
      | None => None
      end
  end.

Definition field (from len : nat) (s : string) : option Z :=
  number_from 0 (String.substring from len s).

(** The values a field may have: months 1 to 12, days 1 to 31 (a day past
    the end of its month runs into the next one), hours 0 to 23 and
    [24:00:00.000], minutes and seconds 0 to 59.  Any other value makes
    the string no date. *)
Definition in_range (m d hh mm ss ms : Z) : bool :=
  (1 <=? m) && (m <=? 12) && (1 <=? d) && (d <=? 31)
  && (mm <=? 59) && (ss <=? 59)
  && ((hh <=? 23) || (hh =? 24) && (mm =? 0) && (ss =? 0) && (ms =? 0)).

Definition parse (s : string) : option Z :=
  if negb (String.length s =? 24)%nat then None
  else if negb (String.eqb (String.substring 4 1 s) "-"
                && String.eqb (String.substring 7 1 s) "-"
                && String.eqb (String.substring 10 1 s) "T"
                && String.eqb (String.substring 13 1 s) ":"
                && String.eqb (String.substring 16 1 s) ":"
                && String.eqb (String.substring 19 1 s) "."
                && String.eqb (String.substring 23 1 s) "Z") then None
  else
    y ← field 0 4 s; m ← field 5 2 s; d ← field 8 2 s;
    hh ← field 11 2 s; mm ← field 14 2 s; ss ← field 17 2 s;
    ms ← field 20 3 s;
    if in_range m d hh mm ss ms
    then Some (days_from_civil y m d * ms_per_day
               + hh * 3600000 + mm * 60000 + ss * 1000 + ms)
    else None.

(** [Number(s)] for the empty string and for decimal integers. *)
Definition to_number (s : string) : option Z :=
  match s with
  | EmptyString => Some 0
  | String "-"%char (String c rest) => Z.opp <$> number_from 0 (String c rest)
  | _ => number_from 0 s
  end.

End IsoHost.

#[global] Instance iso_host : Host := {|
  Date_parse := IsoHost.parse;
  toISOString := IsoHost.format;
  StringToNumber := IsoHost.to_number
|}.

(** * The program *)

Section Program.

Context {host : Host}.

(** ** Coercions that consult the host *)

(** [v > 0] *)
Definition gt_zero (v : jsval) : bool :=
  match v with
  | None | Some JNull => false
  | Some (JBool b) => b
  | Some (JNum n) => 0 <? n
  | Some (JStr s) => match StringToNumber s with Some n => 0 <? n | None => false end
  | Some (JArr _ as x) | Some (JObj _ as x) =>
      match StringToNumber (js_toString x) with Some n => 0 <? n | None => false end
  end.

(** The largest time value of a [Date]. *)
Definition max_time : Z := 8640000000000000.

(** [new Date(v).getTime()], [None] for [NaN]. *)
Definition Date_getTime (v : jsval) : option Z :=
  match v with
  | None => None
  | Some JNull => Some 0
  | Some (JBool b) => Some (if b then 1 else 0)
  | Some (JNum n) => if Z.abs n <=? max_time then Some n else None
  | Some (JStr s) => Date_parse s
  | Some (JArr _ as x) | Some (JObj _ as x) => Date_parse (js_toString x)
  end.

(** ** AppCache *)

Definition CACHE_KEY : string := "food_diary_cache".
Definition CACHE_VERSION : string := "1.0".

(** [AppCache.get()]; [console.error] leaves no trace in the world. *)
Definition AppCache_get : M json :=
  try_catch
    (let* cached := localStorage_getItem CACHE_KEY in
     if truthy_text cached then
       let* data := JSON_parse cached in
       let* version := lift (get_prop (Some data) "version") in
       if strict_eq version (JStr CACHE_VERSION) then mret data else mret JNull
     else mret JNull)
    (fun e => mret JNull).

(** [AppCache.set(data)].  The two assignments change the caller's
    object, so the object as it is afterwards is the result. *)
Definition AppCache_set (data : json) : M json :=
  let* now := Date_now in
  match
    let+ d := set_prop data "version" (JStr CACHE_VERSION) in
    set_prop d "cachedAt" (JStr (toISOString now))
  with
  | Ret stamped =>
      try_catch
        (localStorage_setItem CACHE_KEY (JSON_stringify stamped);; mret stamped)
        (fun e => mret stamped)
  | Throw e => mret data
  end.

Definition AppCache_clear : M unit := localStorage_removeItem CACHE_KEY.

Definition fiveMinutes : Z := 5 * 60 * 1000.

(** [AppCache.isValid()] *)
Definition AppCache_isValid : M bool :=
  let* cached := AppCache_get in
  if negb (truthy (Some cached)) then mret false else
  let* cachedAt := lift (get_prop (Some cached) "cachedAt") in
  if negb (truthy cachedAt) then mret false else
  let cachedTime := Date_getTime cachedAt in
  let* now := Date_now in
  mret (match cachedTime with
        | Some t => now - t <? fiveMinutes
        | None => false
        end).

(** ** OfflineQueue *)

Definition QUEUE_KEY : string := "food_diary_queue".

Definition empty_queue : json :=
  JObj [("new_entries", JArr []); ("deleted_entries", JArr []);
        ("new_products", JArr []); ("deleted_products", JArr [])].

(** [OfflineQueue.get()] *)
Definition OfflineQueue_get : M json :=
  try_catch
    (let* queue := localStorage_getItem QUEUE_KEY in
     if truthy_text queue then JSON_parse queue else mret empty_queue)
    (fun e => mret empty_queue).

(** [OfflineQueue.set(queue)] *)
Definition OfflineQueue_set (queue : json) : M unit :=
  localStorage_setItem QUEUE_KEY (JSON_stringify queue).

(** [queue[k].push(x)]: the array is extended in place, inside [queue]. *)
Definition push_onto (queue : json) (k : string) (x : json) : outcome json :=
  let+ arr := get_prop (Some queue) k in
  match arr with
  | Some (JArr items) => set_prop queue k (JArr (items ++ [x]))
  | _ => Throw TypeError
  end.

(** [items.filter(keep)] with a callback that may throw. *)
Fixpoint filter_items (keep : json -> outcome bool) (items : list json)
  : outcome (list json) :=
  match items with
  | [] => Ret []
  | e :: rest =>
      let+ b := keep e in
      let+ kept := filter_items keep rest in
      Ret (if b then e :: kept else kept)
  end.

Definition array_filter (keep : json -> outcome bool) (arr : jsval) : outcome json :=
  match arr with
  | Some (JArr items) => let+ kept := filter_items keep items in Ret (JArr kept)
  | _ => Throw TypeError
  end.

(** ['temp_' + Date.now()] *)
Definition temp_id (now : Z) : string := "temp_" +:+ pretty now.

(** [OfflineQueue.addEntry(entry)].  The entry is the caller's object and
    is stamped in place: the result is the temp id together with the
    entry as it is afterwards. *)
Definition OfflineQueue_addEntry (entry : object) : M (json * object) :=
  let* queue := OfflineQueue_get in
  let* now := Date_now in
  let tempId := JStr (temp_id now) in
  let entry := update_field "_tempId" tempId entry in
  let* queue := lift (push_onto queue "new_entries" (JObj entry)) in
  OfflineQueue_set queue;;
  mret (tempId, entry).

(** [OfflineQueue.deleteEntry(entryId)] *)
Definition OfflineQueue_deleteEntry (entryId : json) : M unit :=
  let* queue := OfflineQueue_get in
  let* queue :=
    if startsWith (js_toString entryId) "temp_" then
      lift (let+ entries := get_prop (Some queue) "new_entries" in
            let+ kept :=
              array_filter
                (fun e => let+ tempId := get_prop (Some e) "_tempId" in
                          Ret (negb (strict_eq tempId entryId)))
                entries in
            set_prop queue "new_entries" kept)
    else
      lift (push_onto queue "deleted_entries" entryId) in
  OfflineQueue_set queue.

(** [OfflineQueue.addProduct(product)] *)
Definition OfflineQueue_addProduct (product : object) : M (json * object) :=
  let* queue := OfflineQueue_get in
  let* now := Date_now in
  let tempId := JStr (temp_id now) in
  let product := update_field "_tempId" tempId product in
  let* queue := lift (push_onto queue "new_products" (JObj product)) in
  OfflineQueue_set queue;;
  mret (tempId, product).

(** [OfflineQueue.clear()] *)
Definition OfflineQueue_clear : M unit := localStorage_removeItem QUEUE_KEY.

(** [queue[k].length > 0] *)
Definition has_items (queue : json) (k : string) : outcome bool :=
  let+ arr := get_prop (Some queue) k in
  let+ len := get_prop arr "length" in
  Ret (gt_zero len).

(** [OfflineQueue.hasChanges()]; [||] stops at the first true operand. *)
Definition OfflineQueue_hasChanges : M bool :=
  let* queue := OfflineQueue_get in
  lift (let+ a := has_items queue "new_entries" in
        if a then Ret true else
        let+ b := has_items queue "deleted_entries" in
        if b then Ret true else
        let+ c := has_items queue "new_products" in
        if c then Ret true else
        has_items queue "deleted_products").

(** ** API *)

Definition http_get (url : string) : request :=
  {| req_method := GET; req_url := url; req_body := None |}.
Definition http_post (url : string) (payload : text) : request :=
  {| req_method := POST; req_url := url; req_body := Some payload |}.
Definition http_delete (url : string) : request :=
  {| req_method := DELETE; req_url := url; req_body := None |}.

(** [API.syncAll()] *)
Definition API_syncAll : M jsval :=
  try_catch
    (let* response := fetch (http_get "/api/sync") in
     if negb (ok response) then throw (Error (Some (JStr "Sync failed"))) else
     let* result := response_json response in
     let* success := lift (get_prop (Some result) "success") in
     if truthy success then
       let* result := AppCache_set result in
       lift (get_prop (Some result) "data")
     else
       let* error := lift (get_prop (Some result) "error") in
       throw (Error (if truthy error then error else Some (JStr "Sync failed"))))
    (fun e =>
       let* cached := AppCache_get in
       if truthy (Some cached) then lift (get_prop (Some cached) "data")
       else mret (Some JNull)).

(** [API.pushChanges()] *)
Definition API_pushChanges : M bool :=
  let* changes := OfflineQueue_hasChanges in
  if negb changes then mret true else
  try_catch
    (let* queue := OfflineQueue_get in
     let* response := fetch (http_post "/api/sync" (JSON_stringify queue)) in
     if ok response then OfflineQueue_clear;; mret true
     else mret false)
    (fun e => mret false).

(** [API.addEntry(entry)]: the result and the caller's entry afterwards. *)
Definition API_addEntry (entry : object) : M (jsval * object) :=
  try_catch
    (let* response := fetch (http_post "/api/add_entry" (JSON_stringify (JObj entry))) in
     if ok response then
       let* result := response_json response in
       let* created := lift (get_prop (Some result) "entry") in
       mret (created, entry)
     else throw (Error (Some (JStr "Add entry failed"))))
    (fun e =>
       let* (tempId, entry) := OfflineQueue_addEntry entry in
       mret (Some (JObj (update_field "_offline" (JBool true)
                           (update_field "id" tempId entry))), entry)).

(** [API.deleteEntry(entryId)] *)
Definition API_deleteEntry (entryId : json) : M bool :=
  try_catch
    (let* response := fetch (http_delete ("/api/delete_entry/" +:+ js_toString entryId)) in
     mret (ok response))
    (fun e => OfflineQueue_deleteEntry entryId;; mret true).

(** [API.addProduct(product)] *)
Definition API_addProduct (product : object) : M (jsval * object) :=
  try_catch
    (let* response := fetch (http_post "/api/add_product" (JSON_stringify (JObj product))) in
     if ok response then
       let* result := response_json response in
       let* created := lift (get_prop (Some result) "product") in
       mret (created, product)
     else throw (Error (Some (JStr "Add product failed"))))
    (fun e =>
       let* (tempId, product) := OfflineQueue_addProduct product in
       mret (Some (JObj (update_field "_offline" (JBool true)
                           (update_field "id" tempId product))), product)).

End Program.

(** ** Reading the world

    The notions the properties are stated with: what the two storage cells
    hold, and when a stored queue has the shape the program gives it. *)

Section Observations.

Context {host : Host}.

(** The queue that is stored: the parsed cell, and the empty queue when
    the cell is missing or its text does not parse. *)
Definition stored_queue (w : world) : json :=
  match storage w !! QUEUE_KEY with
  | Some (Json q) => q
  | _ => empty_queue
  end.

(** The list held by property [k] of a queue, when it is an array. *)
Definition array_of (k : string) (q : json) : option (list json) :=
  match q with
  | JObj fs =>
      match lookup_field k fs with
      | Some (JArr items) => Some items
      | _ => None
      end
  | _ => None
  end.

Definition is_object (v : json) : bool :=
  match v with
  | JObj _ => true
  | _ => false
  end.

(** A structurally valid queue: an object whose four lists are arrays,
    the new entries and new products being objects. *)
Definition valid_queue (q : json) : bool :=
  match array_of "new_entries" q, array_of "deleted_entries" q,
        array_of "new_products" q, array_of "deleted_products" q with
  | Some ne, Some _, Some np, Some _ => forallb is_object ne && forallb is_object np
  | _, _, _, _ => false
  end.

(** The states of the queue cell: missing, a text that does not
    deserialize, or the JSON text of a valid queue. *)
Inductive queue_cell : option text -> Prop :=
  | cell_missing : queue_cell None
  | cell_empty : queue_cell (Some EmptyText)
  | cell_malformed : queue_cell (Some Malformed)
  | cell_queue q : valid_queue q = true -> queue_cell (Some (Json q)).

Definition queue_ok (w : world) : Prop := queue_cell (storage w !! QUEUE_KEY).

(** Whether a text deserializes. *)
Definition deserializes (t : option text) : bool :=
  match t with
  | Some (Json _) => true
  | _ => false
  end.

(** The storage takes every write of the queue. *)
Definition room_for_queue (w : world) : Prop :=
  forall t : text, accepts w QUEUE_KEY t = true.

(** The number of pending changes of a queue. *)
Definition pending (q : json) : nat :=
  length (default [] (array_of "new_entries" q))
  + length (default [] (array_of "deleted_entries" q))
  + length (default [] (array_of "new_products" q))
  + length (default [] (array_of "deleted_products" q)).

(** The temp id an entry of the queue carries. *)
Definition tempId_of (e : json) : jsval :=
  match e with
  | JObj fs => lookup_field "_tempId" fs
  | _ => undefined
  end.

(** The entries a removal by temp id keeps: those whose temp id is not
    [entryId]. *)
Definition survives (entryId : json) (e : json) : bool :=
  negb (strict_eq (tempId_of e) entryId).

(** The stored snapshot's properties, when the cache cell holds the JSON
    text of an object. *)
Definition snapshot_fields (w : world) : option object :=
  match storage w !! CACHE_KEY with
  | Some (Json (JObj fs)) => Some fs
  | _ => None
  end.

Definition snapshot_version (w : world) : jsval :=
  fs ← snapshot_fields w; lookup_field "version" fs.

(** The time value of the stored snapshot's [cachedAt]; [None] when no
    snapshot is stored or its [cachedAt] is absent, falsy or not a date. *)
Definition snapshot_time (w : world) : option Z :=
  fs ← snapshot_fields w;
  c ← lookup_field "cachedAt" fs;
  if truthy (Some c) then Date_getTime (Some c) else None.

(** The stored snapshot of the current schema version, however old. *)
Definition cached_snapshot (w : world) : option object :=
  fs ← snapshot_fields w;
  match lookup_field "version" fs with
  | Some (JStr v) => if String.eqb v CACHE_VERSION then Some fs else None
  | _ => None
  end.

(** What [AppCache.get()] has to return: that snapshot, or [null]. *)
Definition cached_value (w : world) : json :=
  match cached_snapshot w with
  | Some fs => JObj fs
  | None => JNull
  end.

(** The result of the pull, when the gateway delivers one: a 2xx reply
    whose body is JSON with a truthy [success]. *)
Definition pulled (w : world) : option json :=
  match remote w (http_get "/api/sync") with
  | Some {| ok := true; body := Json result |} =>
      match get_prop (Some result) "success" with
      | Ret success => if truthy success then Some result else None
      | Throw _ => None
      end
  | _ => None
  end.

(** The request that pushes the stored queue, and whether the gateway
    takes it: a 2xx reply. *)
Definition push_request (w : world) : request :=
  http_post "/api/sync" (JSON_stringify (stored_queue w)).

Definition push_accepted (w : world) : bool :=
  match remote w (push_request w) with
  | Some r => ok r
  | None => false
  end.

(** The request that creates an entry, and what the gateway delivers
    for it: the [entry] of a 2xx reply whose body is JSON other than
    [null]; every other reply, and no reply, is a failure. *)
Definition create_request (entry : object) : request :=
  http_post "/api/add_entry" (JSON_stringify (JObj entry)).

Definition created (w : world) (entry : object) : option jsval :=
  match remote w (create_request entry) with
  | Some {| ok := true; body := Json result |} =>
      match get_prop (Some result) "entry" with
      | Ret e => Some e
      | Throw _ => None
      end
  | _ => None
  end.

(** The request that deletes an entry. *)
Definition delete_request (entryId : json) : request :=
  http_delete ("/api/delete_entry/" +:+ js_toString entryId).

(** The pulled result as [AppCache.set] stamps it at time [now]. *)
Definition stamped (now : Z) (result : json) : json :=
  match result with
  | JObj fs =>
      JObj (update_field "cachedAt" (JStr (toISOString now))
              (update_field "version" (JStr CACHE_VERSION) fs))
  | _ => result
  end.

End Observations.

(** ** Sample worlds

    The worlds of the worked examples: a browser that is offline (every
    request fails) with room in its storage, holding the given cells. *)

Definition offline (cells : list (string * text)) (now : Z) : world :=
  {| storage := list_to_map cells; accepts := fun _ _ => true; clock := now;
     remote := fun _ => None; sent := [] |}.

Definition apple : object := [("product", JStr "apple"); ("weight", JNum 150)].
Definition pear : object := [("product", JStr "pear"); ("weight", JNum 80)].

(** An entry as it sits in the queue, stamped with its temp id. *)
Definition queued (tid : string) (e : object) : json :=
  JObj (update_field "_tempId" (JStr tid) e).

Definition queue_of (ne de : list json) : json :=
  JObj [("new_entries", JArr ne); ("deleted_entries", JArr de);
        ("new_products", JArr []); ("deleted_products", JArr [])].

(** Three queued entries, two of them under the same temp id, and one
    queued deletion. *)
Definition busy_world : world :=
  offline
    [(QUEUE_KEY,
      Json (queue_of [queued "temp_123" apple; queued "temp_456" pear; queued "temp_123" pear]
                     [JNum 7]))]
    1700000000000.

(** Nothing stored. *)
Definition fresh_world : world := offline [] 1700000000000.

(** Offline, and the storage is full: every write exceeds the quota. *)
Definition full_world : world :=
  {| storage := ∅; accepts := fun _ _ => false; clock := 1700000000000;
     remote := fun _ => None; sent := [] |}.

(** The queue of [busy_world], with a gateway that answers every request
    with the given status and an empty body. *)
Definition answering (status : bool) : world :=
  {| storage := storage busy_world; accepts := fun _ _ => true; clock := 1700000000000;
     remote := fun _ => Some {| ok := status; body := EmptyText |}; sent := [] |}.

(** A snapshot as [AppCache.set] wrote it on 2024-02-29 at 12:34:56.789
    UTC, seen [age] milliseconds later by a browser that is offline. *)
Definition cached_at : Z := 1709210096789.

Definition day_data : json := JObj [("entries", JArr [JObj apple])].

Definition snapshot_2024 : json :=
  JObj [("success", JBool true); ("data", day_data);
        ("version", JStr "1.0"); ("cachedAt", JStr "2024-02-29T12:34:56.789Z")].

Definition cache_world (age : Z) : world :=
  offline [(CACHE_KEY, Json snapshot_2024)] (cached_at + age).

(** Nothing cached, and a gateway that answers the pull with [day_data]. *)
Definition online_world : world :=
  {| storage := ∅; accepts := fun _ _ => true; clock := cached_at;
     remote := fun _ =>
       Some {| ok := true;
               body := Json (JObj [("success", JBool true); ("data", day_data)]) |};
     sent := [] |}.

(** ** The rest of the page's requests

    [window.searchProducts] and [window.getProductNutrition] of
    [static/js/main.js], and the observations the further properties are
    stated with. *)

(** [encodeURIComponent] is the platform's.  It escapes a string and
    throws on one that is not well formed (a [URIError], for a lone
    surrogate); the search is stated for every such function. *)
Section Escaping.

Variable encodeURIComponent : string -> outcome string.

(** [window.searchProducts(query)] *)
Definition searchProducts (query : json) : M json :=
  try_catch
    (let* escaped := lift (encodeURIComponent (js_toString query)) in
     let* response := fetch (http_get ("/api/search_products?q=" +:+ escaped)) in
     response_json response)
    (fun error => mret (JArr [])).

End Escaping.

(** [window.getProductNutrition(productId, weight = 100)]: an omitted
    weight is 100. *)
Definition getProductNutrition (productId : json) (weight : jsval) : M json :=
  let weight := default (JNum 100) weight in
  try_catch
    (let* response :=
       fetch (http_get ("/api/product/" +:+ js_toString productId
                        +:+ "?weight=" +:+ js_toString weight)) in
     response_json response)
    (fun error => mret JNull).

(** The JSON a reply carries, whatever its status. *)
Definition reply_json (reply : option response) : option json :=
  match reply with
  | Some {| ok := _; body := Json v |} => Some v
  | _ => None
  end.

(** The world at another moment. *)
Definition at_time (now : Z) (w : world) : world :=
  {| storage := storage w; accepts := accepts w; clock := now;
     remote := remote w; sent := sent w |}.

(** The storage takes every write of the cache. *)
Definition room_for_cache (w : world) : Prop :=
  forall t : text, accepts w CACHE_KEY t = true.

(** The request that creates a product, and what the gateway delivers
    for it. *)
Definition product_request (product : object) : request :=
  http_post "/api/add_product" (JSON_stringify (JObj product)).

Definition created_product (w : world) (product : object) : option jsval :=
  match remote w (product_request product) with
  | Some {| ok := true; body := Json result |} =>
      match get_prop (Some result) "product" with
      | Ret p => Some p
      | Throw _ => None
      end
  | _ => None
  end.

(** Key [k] of the storage holds [v]. *)
Definition cell_is (k : string) (v : option text) (w : world) : Prop :=
  storage w !! k = v.

(** ** The start of the page

    The part of the [DOMContentLoaded] handler that synchronises.  It runs
    the operations up to their [await]; what follows the [await] runs
    later, when the reply is there. *)

(** The request goes out: [fetch(...)] up to the [await]. *)
Definition issue (req : request) : M (option response) :=
  fun w => (Ret (remote w req), with_sent w (sent w ++ [req])).

(** The [await] of the reply: a request that failed rejects. *)
Definition settle (reply : option response) : M response :=
  match reply with
  | Some r => mret r
  | None => throw TypeError
  end.

Section Startup.

Context {host : Host}.

(** [API.syncAll()] from the [await] on. *)
Definition syncAll_resume (reply : option response) : M jsval :=
  try_catch
    (let* response := settle reply in
     if negb (ok response) then throw (Error (Some (JStr "Sync failed"))) else
     let* result := response_json response in
     let* success := lift (get_prop (Some result) "success") in
     if truthy success then
       let* result := AppCache_set result in
       lift (get_prop (Some result) "data")
     else
       let* error := lift (get_prop (Some result) "error") in
       throw (Error (if truthy error then error else Some (JStr "Sync failed"))))
    (fun e =>
       let* cached := AppCache_get in
       if truthy (Some cached) then lift (get_prop (Some cached) "data")
       else mret (Some JNull)).

(** [API.pushChanges()] up to its [await]: it is done at once when there
    are no changes, and otherwise waits for the reply to its push.  An
    [async] function does not throw to its caller: an exception before the
    [await] leaves a rejected promise. *)
Inductive push_state : Type :=
  | PushDone (success : bool)
  | PushWaiting (reply : option response)
  | PushRejected (e : exn).

Definition pushChanges_begin : M push_state :=
  try_catch
    (let* changes := OfflineQueue_hasChanges in
     if negb changes then mret (PushDone true) else
     try_catch
       (let* queue := OfflineQueue_get in
        let* reply := issue (http_post "/api/sync" (JSON_stringify queue)) in
        mret (PushWaiting reply))
       (fun e => mret (PushDone false)))
    (fun e => mret (PushRejected e)).

(** [API.pushChanges()] from the [await] on. *)
Definition pushChanges_resume (reply : option response) : M bool :=
  try_catch
    (let* response := settle reply in
     if ok response then OfflineQueue_clear;; mret true
     else mret false)
    (fun e => mret false).

(** How the promise of [API.pushChanges()] settles. *)
Definition pushChanges_end (state : push_state) : M bool :=
  match state with
  | PushDone success => mret success
  | PushWaiting reply => pushChanges_resume reply
  | PushRejected e => throw e
  end.


End Startup.

(** The result a reply to the pull delivers: the object of a 2xx reply
    whose body is JSON with a truthy [success]. *)
Definition delivered (reply : option response) : option object :=
  match reply with
  | Some {| ok := true; body := Json (JObj fs) |} =>
      if truthy (lookup_field "success" fs) then Some fs else None
  | _ => None
  end.

(** Whether a reply to the push is a 2xx reply. *)
Definition accepted (reply : option response) : bool :=
  match reply with
  | Some r => ok r
  | None => false
  end.

(** The requests of the product lookups. *)
Definition search_request (escaped : string) : request :=
  http_get ("/api/search_products?q=" +:+ escaped).

Definition nutrition_request (productId : json) (weight : json) : request :=
  http_get ("/api/product/" +:+ js_toString productId +:+ "?weight=" +:+ js_toString weight).

(** Further sample worlds: the queue cell holding the JSON [null]; a
    gateway that creates what it is sent; and the busy queue with a
    gateway that is down for everything but the push. *)
Definition null_queue_world : world := offline [(QUEUE_KEY, Json JNull)] 1700000000000.

Definition created_apple : json := JObj (("id", JNum 42) :: apple).
Definition created_pear : json := JObj (("id", JNum 7) :: pear).

Definition serving_world : world :=
  {| storage := ∅; accepts := fun _ _ => true; clock := 1700000000000;
     remote := fun _ =>
       Some {| ok := true;
               body := Json (JObj [("entry", created_apple); ("product", created_pear)]) |};
     sent := [] |}.

Definition flaky_world : world :=
  {| storage := storage busy_world; accepts := fun _ _ => true; clock := 1700000000000;
     remote := fun req =>
       if String.eqb (req_url req) "/api/sync"
       then Some {| ok := true; body := EmptyText |} else None;
     sent := [] |}.

(** ** The worlds the program reaches

    The queue cell starts missing, or holding a text that does not
    deserialize.  Then the operations run, in any order and with any
    arguments, and between them everything but the queue cell may change:
    the clock, the gateway, the quota, the log and the rest of the
    storage. *)
Section Reached.

Context {host : Host}.

Inductive reached : world -> Prop :=
  | reached_start w :
      deserializes (storage w !! QUEUE_KEY) = false -> reached w
  | reached_elsewhere w w' :
      reached w -> storage w' !! QUEUE_KEY = storage w !! QUEUE_KEY -> reached w'
  | reached_syncAll w :
      reached w -> reached (snd (API_syncAll w))
  | reached_pushChanges w :
      reached w -> reached (snd (API_pushChanges w))
  | reached_addEntry w entry :
      reached w -> reached (snd (API_addEntry entry w))
  | reached_deleteEntry w entryId :
      reached w -> reached (snd (API_deleteEntry entryId w))
  | reached_addProduct w product :
      reached w -> reached (snd (API_addProduct product w)).

End Reached.

(** ** Invariants of computations *)

(** [m] keeps the invariant [Inv], however it ends, and its result, when it
    returns one, satisfies [Q]. *)
Definition keeps {A : Type} (Inv : world -> Prop) (m : M A) (Q : A -> Prop) : Prop :=
  forall w, Inv w -> Inv (snd (m w)) /\ forall a, fst (m w) = Ret a -> Q a.

(** * Properties *)

(** ** Running computations *)

Lemma bind_ret {A B : Type} (m : M A) (k : A -> M B) w a w' :
  m w = (Ret a, w') -> bind m k w = k a w'.
Proof. intros E. unfold bind, mbind, M_bind. rewrite E. reflexivity. Qed.

Lemma bind_throw {A B : Type} (m : M A) (k : A -> M B) w e w' :
  m w = (Throw e, w') -> bind m k w = (Throw e, w').
Proof. intros E. unfold bind, mbind, M_bind. rewrite E. reflexivity. Qed.

Lemma seq_ret {A B : Type} (m : M A) (k : M B) w a w' :
  m w = (Ret a, w') -> (m ;; k) w = k w'.
Proof. intros E. unfold mbind, M_bind. rewrite E. reflexivity. Qed.

Lemma try_ret {A : Type} (m : M A) h w a w' :
  m w = (Ret a, w') -> try_catch m h w = (Ret a, w').
Proof. intros E. unfold try_catch. rewrite E. reflexivity. Qed.

Lemma try_throw {A : Type} (m : M A) h w e w' :
  m w = (Throw e, w') -> try_catch m h w = h e w'.
Proof. intros E. unfold try_catch. rewrite E. reflexivity. Qed.

(** ** Properties of objects *)

Lemma lookup_update_field_eq k x fs : lookup_field k (update_field k x fs) = Some x.
Proof.
  induction fs as [|[k' y] fs IH]; simpl.
  - rewrite String.eqb_refl. reflexivity.
  - destruct (String.eqb k' k) eqn:E; simpl.
    + rewrite String.eqb_refl. reflexivity.
    + rewrite E. exact IH.
Qed.

Lemma lookup_update_field_ne k k' x fs :
  k <> k' -> lookup_field k' (update_field k x fs) = lookup_field k' fs.
Proof.
  intros Hne. induction fs as [|[k0 y] fs IH]; simpl.
  - destruct (String.eqb k k') eqn:E; [apply String.eqb_eq in E; contradiction | reflexivity].
  - destruct (String.eqb k0 k) eqn:E; simpl.
    + apply String.eqb_eq in E. subst k0.
      destruct (String.eqb k k') eqn:E'; [apply String.eqb_eq in E'; contradiction | reflexivity].
    + destruct (String.eqb k0 k'); [reflexivity | exact IH].
Qed.

Lemma array_of_update_eq k items fs :
  array_of k (JObj (update_field k (JArr items) fs)) = Some items.
Proof. unfold array_of. rewrite lookup_update_field_eq. reflexivity. Qed.

Lemma array_of_update_ne k k' x fs :
  k <> k' -> array_of k' (JObj (update_field k x fs)) = array_of k' (JObj fs).
Proof. intros Hne. unfold array_of. rewrite lookup_update_field_ne by assumption. reflexivity. Qed.

Lemma array_of_object k q items : array_of k q = Some items -> exists fs, q = JObj fs /\ lookup_field k fs = Some (JArr items).
Proof.
  destruct q as [| | | | |fs]; simpl; try discriminate.
  intros H. exists fs. split; [reflexivity|].
  destruct (lookup_field k fs) as [[| | | |l|]|]; try discriminate. congruence.
Qed.

(** ** The queue *)

Section QueueFacts.

Context {host : Host}.

Lemma OfflineQueue_get_eq w : OfflineQueue_get w = (Ret (stored_queue w), w).
Proof.
  unfold OfflineQueue_get, stored_queue, try_catch, bind, mbind, M_bind, localStorage_getItem.
  destruct (storage w !! QUEUE_KEY) as [[| |q]|]; reflexivity.
Qed.

Lemma valid_empty_queue : valid_queue empty_queue = true.
Proof. reflexivity. Qed.

Lemma queue_ok_valid w : queue_ok w -> valid_queue (stored_queue w) = true.
Proof.
  unfold queue_ok, stored_queue. intros H.
  inversion H as [E|E|E|q Hq E]; try reflexivity. exact Hq.
Qed.
Lemma valid_queue_inv q :
  valid_queue q = true ->
  exists fs ne de np dp,
    q = JObj fs
    /\ lookup_field "new_entries" fs = Some (JArr ne)
    /\ lookup_field "deleted_entries" fs = Some (JArr de)
    /\ lookup_field "new_products" fs = Some (JArr np)
    /\ lookup_field "deleted_products" fs = Some (JArr dp)
    /\ forallb is_object ne = true /\ forallb is_object np = true.
Proof.
  unfold valid_queue. intros H.
  destruct (array_of "new_entries" q) as [ne|] eqn:E1; [|discriminate].
  destruct (array_of "deleted_entries" q) as [de|] eqn:E2; [|discriminate].
  destruct (array_of "new_products" q) as [np|] eqn:E3; [|discriminate].
  destruct (array_of "deleted_products" q) as [dp|] eqn:E4; [|discriminate].
  apply andb_prop in H as [Hne Hnp].
  apply array_of_object in E1 as (fs & -> & L1).
  apply array_of_object in E2 as (fs2 & [= <-] & L2).
  apply array_of_object in E3 as (fs3 & [= <-] & L3).
  apply array_of_object in E4 as (fs4 & [= <-] & L4).
  exists fs, ne, de, np, dp. auto 10.
Qed.

Lemma valid_queue_intro fs ne de np dp :
  lookup_field "new_entries" fs = Some (JArr ne) ->
  lookup_field "deleted_entries" fs = Some (JArr de) ->
  lookup_field "new_products" fs = Some (JArr np) ->
  lookup_field "deleted_products" fs = Some (JArr dp) ->
  forallb is_object ne = true -> forallb is_object np = true ->
  valid_queue (JObj fs) = true.
Proof.
  intros L1 L2 L3 L4 H1 H2. unfold valid_queue, array_of.
  rewrite L1, L2, L3, L4, H1, H2. reflexivity.
Qed.

Lemma push_onto_object fs k items x :
  lookup_field k fs = Some (JArr items) ->
  push_onto (JObj fs) k x = Ret (JObj (update_field k (JArr (items ++ [x])) fs)).
Proof. intros L. unfold push_onto. simpl. rewrite L. reflexivity. Qed.

Lemma OfflineQueue_set_eq w q :
  room_for_queue w ->
  OfflineQueue_set q w = (Ret tt, with_storage w (<[QUEUE_KEY := Json q]> (storage w))).
Proof.
  intros Hroom. unfold OfflineQueue_set, localStorage_setItem, JSON_stringify.
  rewrite Hroom. reflexivity.
Qed.

Lemma stored_queue_written w q :
  stored_queue (with_storage w (<[QUEUE_KEY := Json q]> (storage w))) = q.
Proof. unfold stored_queue. simpl. rewrite lookup_insert_eq. reflexivity. Qed.

Lemma filter_items_objects (keep : json -> bool) (k : json -> outcome bool) items :
  (forall e, is_object e = true -> k e = Ret (keep e)) ->
  forallb is_object items = true ->
  filter_items k items = Ret (List.filter keep items).
Proof.
  intros Hk. induction items as [|e items IH]; simpl; [reflexivity|].
  intros H. apply andb_prop in H as [He Hitems].
  rewrite (Hk e He). simpl. rewrite (IH Hitems). simpl.
  destruct (keep e); reflexivity.
Qed.

Lemma forallb_filter {A} (p f : A -> bool) l : forallb p l = true -> forallb p (List.filter f l) = true.
Proof.
  induction l as [|a l IH]; simpl; [reflexivity|].
  intros H. apply andb_prop in H as [Ha Hl].
  destruct (f a); simpl; [rewrite Ha|]; auto.
Qed.

(** What [OfflineQueue.deleteEntry] writes for a real id. *)
Lemma deleteEntry_real_run w id fs de :
  stored_queue w = JObj fs ->
  lookup_field "deleted_entries" fs = Some (JArr de) ->
  room_for_queue w ->
  startsWith (js_toString id) "temp_" = false ->
  OfflineQueue_deleteEntry id w =
    (Ret tt, with_storage w (<[QUEUE_KEY :=
       Json (JObj (update_field "deleted_entries" (JArr (de ++ [id])) fs))]> (storage w))).
Proof.
  intros Hq L Hroom Hid. unfold OfflineQueue_deleteEntry.
  rewrite (bind_ret _ _ _ _ _ (OfflineQueue_get_eq w)).
  rewrite Hid, Hq, (push_onto_object _ _ _ _ L).
  unfold bind, mbind, M_bind, lift. apply OfflineQueue_set_eq, Hroom.
Qed.

Lemma deleteEntry_temp_run w id fs ne :
  stored_queue w = JObj fs ->
  lookup_field "new_entries" fs = Some (JArr ne) ->
  forallb is_object ne = true ->
  room_for_queue w ->
  startsWith (js_toString id) "temp_" = true ->
  OfflineQueue_deleteEntry id w =
    (Ret tt, with_storage w (<[QUEUE_KEY :=
       Json (JObj (update_field "new_entries"
               (JArr (List.filter (survives id) ne)) fs))]>
       (storage w))).
Proof.
  intros Hq L Hne Hroom Hid. unfold OfflineQueue_deleteEntry.
  rewrite (bind_ret _ _ _ _ _ (OfflineQueue_get_eq w)).
  rewrite Hid, Hq. simpl. rewrite L. simpl.
  rewrite (filter_items_objects (survives id)); [|
    intros [| | | | |efs] He; try discriminate; reflexivity | exact Hne].
  unfold bind, mbind, M_bind, lift. simpl. apply OfflineQueue_set_eq, Hroom.
Qed.

Lemma temp_id_startsWith now : startsWith (temp_id now) "temp_" = true.
Proof. unfold startsWith, temp_id. simpl. destruct (pretty now); reflexivity. Qed.

Lemma room_for_queue_written w s : room_for_queue w -> room_for_queue (with_storage w s).
Proof. intros H t. exact (H t). Qed.

Lemma queue_ok_written w q :
  valid_queue q = true -> queue_ok (with_storage w (<[QUEUE_KEY := Json q]> (storage w))).
Proof.
  intros Hq. unfold queue_ok. simpl. rewrite lookup_insert_eq. constructor. exact Hq.
Qed.

Lemma addEntry_run w entry fs ne :
  stored_queue w = JObj fs ->
  lookup_field "new_entries" fs = Some (JArr ne) ->
  room_for_queue w ->
  let tempId := JStr (temp_id (clock w)) in
  let entry' := update_field "_tempId" tempId entry in
  OfflineQueue_addEntry entry w =
    (Ret (tempId, entry'),
     with_storage w (<[QUEUE_KEY :=
       Json (JObj (update_field "new_entries" (JArr (ne ++ [JObj entry'])) fs))]> (storage w))).
Proof.
  intros Hq L Hroom tempId entry'. unfold OfflineQueue_addEntry.
  rewrite (bind_ret _ _ _ _ _ (OfflineQueue_get_eq w)).
  rewrite (bind_ret Date_now _ w (clock w) w eq_refl).
  rewrite Hq, (push_onto_object _ _ _ _ L).
  unfold bind at 1. unfold mbind, M_bind, lift.
  rewrite (OfflineQueue_set_eq _ _ Hroom). reflexivity.
Qed.

Lemma has_items_array fs k items :
  lookup_field k fs = Some (JArr items) ->
  has_items (JObj fs) k = Ret (negb (Nat.eqb (length items) 0)).
Proof.
  intros L. unfold has_items. simpl. rewrite L. simpl.
  destruct items; reflexivity.
Qed.

Lemma hasChanges_run w :
  valid_queue (stored_queue w) = true ->
  OfflineQueue_hasChanges w = (Ret (negb (Nat.eqb (pending (stored_queue w)) 0)), w).
Proof.
  intros Hv. destruct (valid_queue_inv _ Hv) as (fs & ne & de & np & dp & Hq & L1 & L2 & L3 & L4 & _).
  unfold OfflineQueue_hasChanges.
  rewrite (bind_ret _ _ _ _ _ (OfflineQueue_get_eq w)).
  rewrite Hq. unfold pending, array_of. rewrite L1, L2, L3, L4. simpl.
  rewrite (has_items_array _ _ _ L1), (has_items_array _ _ _ L2),
          (has_items_array _ _ _ L3), (has_items_array _ _ _ L4).
  unfold lift. simpl.
  destruct ne, de, np, dp; reflexivity.
Qed.

End QueueFacts.

(** ** Queue operations on a well-formed queue *)

Section QueueOperations.

Context {host : Host}.

Lemma survives_spec t e : survives (JStr t) e = true <-> tempId_of e <> Some (JStr t).
Proof.
  unfold survives. destruct (tempId_of e) as [[| | |s| |]|]; simpl;
    try (split; [discriminate|reflexivity]).
  destruct (String.eqb s t) eqn:E; simpl.
  - apply String.eqb_eq in E. subst. split; [discriminate|congruence].
  - apply String.eqb_neq in E. split; [congruence|reflexivity].
Qed.

Lemma tempId_of_stamped t entry :
  tempId_of (JObj (update_field "_tempId" (JStr t) entry)) = Some (JStr t).
Proof. apply lookup_update_field_eq. Qed.

Lemma survives_stamped t entry :
  survives (JStr t) (JObj (update_field "_tempId" (JStr t) entry)) = false.
Proof. unfold survives. rewrite tempId_of_stamped. simpl. rewrite String.eqb_refl. reflexivity. Qed.

Lemma dequeue_temp_filters (w : world) (entryId : json) :
  queue_ok w -> room_for_queue w -> startsWith (js_toString entryId) "temp_" = true ->
  exists w' ne,
    OfflineQueue_deleteEntry entryId w = (Ret tt, w')
    /\ array_of "new_entries" (stored_queue w) = Some ne
    /\ array_of "new_entries" (stored_queue w') = Some (List.filter (survives entryId) ne)
    /\ array_of "deleted_entries" (stored_queue w') = array_of "deleted_entries" (stored_queue w)
    /\ array_of "new_products" (stored_queue w') = array_of "new_products" (stored_queue w)
    /\ array_of "deleted_products" (stored_queue w') = array_of "deleted_products" (stored_queue w)
    /\ queue_ok w' /\ room_for_queue w'.
Proof.
  intros Hok Hroom Hid.
  destruct (valid_queue_inv _ (queue_ok_valid _ Hok))
    as (fs & ne & de & np & dp & Hq & L1 & L2 & L3 & L4 & H1 & H2).
  eexists. exists ne.
  split; [apply (deleteEntry_temp_run w entryId fs ne Hq L1 H1 Hroom Hid)|].
  rewrite stored_queue_written, Hq.
  split; [unfold array_of; rewrite L1; reflexivity|].
  split; [apply array_of_update_eq|].
  do 3 (split; [apply array_of_update_ne; discriminate|]).
  split; [|apply room_for_queue_written, Hroom].
  apply queue_ok_written.
  apply (valid_queue_intro _ (List.filter (survives entryId) ne) de np dp); try assumption;
    try (rewrite lookup_update_field_ne by discriminate; assumption).
  - apply lookup_update_field_eq.
  - apply forallb_filter, H1.
Qed.

Lemma enqueue_appends (w : world) (entry : object) :
  queue_ok w -> room_for_queue w ->
  exists w' ne,
    OfflineQueue_addEntry entry w =
      (Ret (JStr (temp_id (clock w)), update_field "_tempId" (JStr (temp_id (clock w))) entry), w')
    /\ array_of "new_entries" (stored_queue w) = Some ne
    /\ array_of "new_entries" (stored_queue w') =
         Some (ne ++ [JObj (update_field "_tempId" (JStr (temp_id (clock w))) entry)])
    /\ array_of "deleted_entries" (stored_queue w') = array_of "deleted_entries" (stored_queue w)
    /\ array_of "new_products" (stored_queue w') = array_of "new_products" (stored_queue w)
    /\ array_of "deleted_products" (stored_queue w') = array_of "deleted_products" (stored_queue w)
    /\ clock w' = clock w /\ queue_ok w' /\ room_for_queue w'.
Proof.
  intros Hok Hroom.
  destruct (valid_queue_inv _ (queue_ok_valid _ Hok))
    as (fs & ne & de & np & dp & Hq & L1 & L2 & L3 & L4 & H1 & H2).
  eexists. exists ne.
  split; [apply (addEntry_run w entry fs ne Hq L1 Hroom)|].
  rewrite stored_queue_written, Hq.
  split; [unfold array_of; rewrite L1; reflexivity|].
  split; [apply array_of_update_eq|].
  do 3 (split; [apply array_of_update_ne; discriminate|]).
  split; [reflexivity|].
  split; [|apply room_for_queue_written, Hroom].
  apply queue_ok_written.
  apply (valid_queue_intro _
           (ne ++ [JObj (update_field "_tempId" (JStr (temp_id (clock w))) entry)]) de np dp);
    try assumption;
    try (rewrite lookup_update_field_ne by discriminate; assumption).
  - apply lookup_update_field_eq.
  - rewrite forallb_app, H1. reflexivity.
Qed.

Lemma dequeue_real_appends (w : world) (entryId : json) :
  queue_ok w -> room_for_queue w ->
  startsWith (js_toString entryId) "temp_" = false ->
  exists w' de,
    OfflineQueue_deleteEntry entryId w = (Ret tt, w')
    /\ array_of "deleted_entries" (stored_queue w) = Some de
    /\ array_of "deleted_entries" (stored_queue w') = Some (de ++ [entryId])
    /\ array_of "new_entries" (stored_queue w') = array_of "new_entries" (stored_queue w)
    /\ array_of "new_products" (stored_queue w') = array_of "new_products" (stored_queue w)
    /\ array_of "deleted_products" (stored_queue w') = array_of "deleted_products" (stored_queue w)
    /\ queue_ok w'.
Proof.
  intros Hok Hroom Hid.
  destruct (valid_queue_inv _ (queue_ok_valid _ Hok))
    as (fs & ne & de & np & dp & Hq & L1 & L2 & L3 & L4 & H1 & H2).
  eexists. exists de.
  split; [apply (deleteEntry_real_run w entryId fs de Hq L2 Hroom Hid)|].
  rewrite stored_queue_written, Hq.
  split; [unfold array_of; rewrite L2; reflexivity|].
  split; [apply array_of_update_eq|].
  repeat split; try (apply array_of_update_ne; discriminate).
  apply queue_ok_written.
  apply (valid_queue_intro _ ne (de ++ [entryId]) np dp); try assumption;
    try (rewrite lookup_update_field_ne by discriminate; assumption).
  apply lookup_update_field_eq.
Qed.

(** *** The gateway *)

Lemma fetch_reply req w r :
  remote w req = Some r -> fetch req w = (Ret r, with_sent w (sent w ++ [req])).
Proof. intros E. unfold fetch. rewrite E. reflexivity. Qed.

Lemma fetch_fails req w :
  remote w req = None -> fetch req w = (Throw TypeError, with_sent w (sent w ++ [req])).
Proof. intros E. unfold fetch. rewrite E. reflexivity. Qed.

Lemma queue_ok_sent w l : queue_ok w -> queue_ok (with_sent w l).
Proof. intros H. exact H. Qed.

Lemma room_for_queue_sent w l : room_for_queue w -> room_for_queue (with_sent w l).
Proof. intros H. exact H. Qed.

(** When the gateway delivers no entry, the request part of [addEntry]
    throws, having logged the request. *)
Lemma create_fails_throws (w : world) (entry : object) :
  created w entry = None ->
  exists e,
    (let* response := fetch (http_post "/api/add_entry" (JSON_stringify (JObj entry))) in
     if ok response then
       let* result := response_json response in
       let* created := lift (get_prop (Some result) "entry") in
       mret (created, entry)
     else throw (Error (Some (JStr "Add entry failed")))) w
    = (Throw e, with_sent w (sent w ++ [create_request entry])).
Proof.
  unfold created. fold (create_request entry).
  destruct (remote w (create_request entry)) as [[status payload]|] eqn:Hr.
  - intros Hc. rewrite (bind_ret _ _ _ _ _ (fetch_reply _ _ _ Hr)). simpl.
    destruct status; [|eexists; reflexivity].
    destruct payload as [| |result]; try (eexists; reflexivity).
    destruct result; try discriminate Hc. eexists; reflexivity.
  - intros _. eexists. apply bind_throw, fetch_fails, Hr.
Qed.

(** What the failure of the create is: the request was rejected, the
    reply is not a 2xx reply, or its body is not JSON or is [null]. *)
Lemma create_fails_when (w : world) (entry : object) :
  created w entry = None <->
  match remote w (create_request entry) with
  | None => True
  | Some r => ok r = false \/ body r = EmptyText \/ body r = Malformed \/ body r = Json JNull
  end.
Proof.
  unfold created.
  destruct (remote w (create_request entry)) as [[[] [| |[]]]|]; simpl;
    intuition (try discriminate; try congruence).
Qed.

End QueueOperations.

(** ** The cache *)

Section CacheFacts.

Context {host : Host}.

Lemma strict_eq_string v s : strict_eq v (JStr s) = true <-> v = Some (JStr s).
Proof.
  destruct v as [[| | |s'| |]|]; simpl; try (split; [discriminate|congruence]).
  rewrite String.eqb_eq. split; congruence.
Qed.

Lemma cached_snapshot_spec w fs :
  cached_snapshot w = Some fs <->
  snapshot_fields w = Some fs /\ snapshot_version w = Some (JStr CACHE_VERSION).
Proof.
  unfold cached_snapshot, snapshot_version.
  destruct (snapshot_fields w) as [fs'|]; simpl; [|split; [discriminate|intros [? _]; discriminate]].
  destruct (lookup_field "version" fs') as [[| | |v| |]|];
    try (split; [discriminate|intros [_ ?]; discriminate]).
  destruct (String.eqb v CACHE_VERSION) eqn:E.
  - apply String.eqb_eq in E. subst v. split; [intros [= ->]; auto|intros [[= ->] _]; reflexivity].
  - apply String.eqb_neq in E. split; [discriminate|intros [_ [= ?]]; contradiction].
Qed.

Lemma AppCache_get_eq w : AppCache_get w = (Ret (cached_value w), w).
Proof.
  unfold AppCache_get, cached_value, cached_snapshot, snapshot_fields, try_catch.
  rewrite (bind_ret (localStorage_getItem CACHE_KEY) _ w _ w eq_refl).
  destruct (storage w !! CACHE_KEY) as [[| |v]|]; try reflexivity. simpl.
  destruct v as [| | | | |fs]; try reflexivity. simpl.
  unfold bind, mbind, M_bind, mret, M_ret, lift. simpl.
  destruct (lookup_field "version" fs) as [[| | |v| |]|]; try reflexivity. simpl.
  change (String.eqb v "1.0") with (String.eqb v CACHE_VERSION).
  destruct (String.eqb v CACHE_VERSION); reflexivity.
Qed.

Lemma AppCache_isValid_eq w :
  AppCache_isValid w =
    (Ret (match cached_snapshot w, snapshot_time w with
          | Some _, Some t => clock w - t <? fiveMinutes
          | _, _ => false
          end), w).
Proof.
  unfold AppCache_isValid.
  rewrite (bind_ret _ _ _ _ _ (AppCache_get_eq w)).
  unfold cached_value, snapshot_time.
  destruct (cached_snapshot w) as [fs|] eqn:Hc; [|reflexivity].
  apply cached_snapshot_spec in Hc as [Hfs _]. rewrite Hfs.
  change (truthy (Some (JObj fs))) with true. cbn [negb].
  rewrite (bind_ret (lift (get_prop (Some (JObj fs)) "cachedAt")) _ w
             (lookup_field "cachedAt" fs) w eq_refl).
  cbn [mbind option_bind].
  destruct (lookup_field "cachedAt" fs) as [c|]; [|reflexivity].
  cbn [mbind option_bind].
  destruct (truthy (Some c)); [|reflexivity]. cbn [negb].
  rewrite (bind_ret Date_now _ w (clock w) w eq_refl). reflexivity.
Qed.

Lemma pull_fails_throws (w : world) :
  pulled w = None ->
  exists e,
    (let* response := fetch (http_get "/api/sync") in
     if negb (ok response) then throw (Error (Some (JStr "Sync failed"))) else
     let* result := response_json response in
     let* success := lift (get_prop (Some result) "success") in
     if truthy success then
       let* result := AppCache_set result in
       lift (get_prop (Some result) "data")
     else
       let* error := lift (get_prop (Some result) "error") in
       throw (Error (if truthy error then error else Some (JStr "Sync failed")))) w
    = (Throw e, with_sent w (sent w ++ [http_get "/api/sync"])).
Proof.
  unfold pulled.
  destruct (remote w (http_get "/api/sync")) as [[status payload]|] eqn:Hr.
  - intros Hp. rewrite (bind_ret _ _ _ _ _ (fetch_reply _ _ _ Hr)).
    destruct status; [|eexists; reflexivity].
    destruct payload as [| |result]; try (eexists; reflexivity).
    destruct result as [| | | | |fs]; try (eexists; reflexivity).
    simpl in Hp. destruct (truthy (lookup_field "success" fs)) eqn:Ht; [discriminate|].
    eexists. unfold response_json, JSON_parse, bind, mbind, M_bind, mret, M_ret, lift.
    cbn -[truthy]. rewrite Ht. reflexivity.
  - intros _. eexists. apply bind_throw, fetch_fails, Hr.
Qed.

Lemma pulled_object w result :
  pulled w = Some result ->
  exists fs r,
    result = JObj fs
    /\ remote w (http_get "/api/sync") = Some r /\ ok r = true /\ body r = Json result
    /\ truthy (lookup_field "success" fs) = true.
Proof.
  unfold pulled.
  destruct (remote w (http_get "/api/sync")) as [[status payload]|]; [|discriminate].
  destruct status; [|discriminate]. destruct payload as [| |v]; try discriminate.
  destruct (get_prop (Some v) "success") as [success|] eqn:Hs; [|discriminate].
  destruct (truthy success) eqn:Ht; [|discriminate]. intros [= ->].
  destruct result as [| | | | |fs]; simpl in Hs; try discriminate;
    try (injection Hs as <-; discriminate Ht).
  injection Hs as <-. exists fs, {| ok := true; body := Json (JObj fs) |}. auto.
Qed.

End CacheFacts.

(** ** The invariant of the queue cell *)

Section Invariant.

Context {host : Host}.

Variable Inv : world -> Prop.

Lemma keeps_ret {A} (a : A) (Q : A -> Prop) : Q a -> keeps Inv (mret a) Q.
Proof. intros HQ w Hw. split; [exact Hw|]. intros a' [= <-]. exact HQ. Qed.

Lemma keeps_throw {A} e (Q : A -> Prop) : keeps Inv (throw e) Q.
Proof. intros w Hw. split; [exact Hw|]. intros a' [=]. Qed.

Lemma keeps_lift {A} (o : outcome A) (Q : A -> Prop) :
  (forall a, o = Ret a -> Q a) -> keeps Inv (lift o) Q.
Proof. intros HQ w Hw. split; [exact Hw|]. exact HQ. Qed.

Lemma keeps_bind {A B} (m : M A) (k : A -> M B) (Q : A -> Prop) (R : B -> Prop) :
  keeps Inv m Q -> (forall a, Q a -> keeps Inv (k a) R) -> keeps Inv (bind m k) R.
Proof.
  intros Hm Hk w Hw. destruct (Hm w Hw) as [Hi Hq].
  unfold bind, mbind, M_bind. destruct (m w) as [[a|e] w']; simpl in *.
  - exact (Hk a (Hq a eq_refl) w' Hi).
  - split; [exact Hi|]. intros b [=].
Qed.

Lemma keeps_seq {A B} (m : M A) (k : M B) (Q : A -> Prop) (R : B -> Prop) :
  keeps Inv m Q -> keeps Inv k R -> keeps Inv (m ;; k) R.
Proof. intros Hm Hk. apply (keeps_bind m (fun _ => k) Q R Hm). intros _ _. exact Hk. Qed.

Lemma keeps_try {A} (m : M A) (h : exn -> M A) (Q : A -> Prop) :
  keeps Inv m Q -> (forall e, keeps Inv (h e) Q) -> keeps Inv (try_catch m h) Q.
Proof.
  intros Hm Hh w Hw. destruct (Hm w Hw) as [Hi Hq].
  unfold try_catch. destruct (m w) as [[a|e] w']; simpl in *.
  - split; [exact Hi|]. intros a' [= <-]. apply Hq. reflexivity.
  - exact (Hh e w' Hi).
Qed.

Lemma keeps_weaken {A} (m : M A) (Q R : A -> Prop) :
  keeps Inv m Q -> (forall a, Q a -> R a) -> keeps Inv m R.
Proof. intros Hm HQR w Hw. destruct (Hm w Hw) as [Hi Hq]. split; [exact Hi|]. auto. Qed.

End Invariant.

Section QueueInvariant.

Context {host : Host}.

Lemma queue_ok_iff_storage w w' :
  storage w' !! QUEUE_KEY = storage w !! QUEUE_KEY -> queue_ok w -> queue_ok w'.
Proof. unfold queue_ok. intros ->. auto. Qed.

Lemma keeps_fetch req : keeps queue_ok (fetch req) (fun _ => True).
Proof.
  intros w Hw. unfold fetch. destruct (remote w req); simpl; split; auto.
Qed.

Lemma keeps_getItem key : keeps queue_ok (localStorage_getItem key) (fun _ => True).
Proof. intros w Hw. split; auto. Qed.

Lemma keeps_Date_now : keeps queue_ok Date_now (fun _ => True).
Proof. intros w Hw. split; auto. Qed.

Lemma keeps_JSON_parse t : keeps queue_ok (JSON_parse t) (fun _ => True).
Proof. intros w Hw. destruct t as [[| |v]|]; split; auto. Qed.

Lemma keeps_OfflineQueue_get : keeps queue_ok OfflineQueue_get (fun q => valid_queue q = true).
Proof.
  intros w Hw. rewrite OfflineQueue_get_eq. simpl. split; [exact Hw|].
  intros a [= <-]. apply queue_ok_valid, Hw.
Qed.

Lemma keeps_OfflineQueue_set q :
  valid_queue q = true -> keeps queue_ok (OfflineQueue_set q) (fun _ => True).
Proof.
  intros Hq w Hw. unfold OfflineQueue_set, localStorage_setItem.
  destruct (accepts w QUEUE_KEY (JSON_stringify q)); simpl; split; auto.
  apply queue_ok_written, Hq.
Qed.

Lemma keeps_OfflineQueue_clear : keeps queue_ok OfflineQueue_clear (fun _ => True).
Proof.
  intros w Hw. split; [|auto]. unfold queue_ok. simpl.
  rewrite lookup_delete_eq. constructor.
Qed.

Lemma keeps_cache_write t : keeps queue_ok (localStorage_setItem CACHE_KEY t) (fun _ => True).
Proof.
  intros w Hw. unfold localStorage_setItem.
  destruct (accepts w CACHE_KEY t); simpl; split; auto.
  unfold queue_ok. simpl. rewrite lookup_insert_ne by discriminate. exact Hw.
Qed.

Lemma push_onto_valid q k x q' :
  valid_queue q = true ->
  (k = "new_entries" \/ k = "new_products" -> is_object x = true) ->
  push_onto q k x = Ret q' -> valid_queue q' = true.
Proof.
  intros Hq Hx.
  destruct (valid_queue_inv q Hq) as (fs & ne & de & np & dp & -> & L1 & L2 & L3 & L4 & H1 & H2).
  unfold push_onto. simpl.
  destruct (lookup_field k fs) as [[| | | |items|]|] eqn:Lk; try discriminate.
  intros [= <-].
  destruct (String.eqb_spec k "new_entries") as [->|N1].
  { rewrite L1 in Lk. injection Lk as <-.
    apply (valid_queue_intro _ (ne ++ [x]) de np dp);
      try (rewrite lookup_update_field_ne by discriminate; assumption); try assumption.
    - apply lookup_update_field_eq.
    - rewrite forallb_app, H1. simpl. rewrite Hx by auto. reflexivity. }
  destruct (String.eqb_spec k "deleted_entries") as [->|N2].
  { rewrite L2 in Lk. injection Lk as <-.
    apply (valid_queue_intro _ ne (de ++ [x]) np dp);
      try (rewrite lookup_update_field_ne by discriminate; assumption); try assumption.
    apply lookup_update_field_eq. }
  destruct (String.eqb_spec k "new_products") as [->|N3].
  { rewrite L3 in Lk. injection Lk as <-.
    apply (valid_queue_intro _ ne de (np ++ [x]) dp);
      try (rewrite lookup_update_field_ne by discriminate; assumption); try assumption.
    - apply lookup_update_field_eq.
    - rewrite forallb_app, H2. simpl. rewrite Hx by auto. reflexivity. }
  destruct (String.eqb_spec k "deleted_products") as [->|N4].
  { rewrite L4 in Lk. injection Lk as <-.
    apply (valid_queue_intro _ ne de np (dp ++ [x]));
      try (rewrite lookup_update_field_ne by discriminate; assumption); try assumption.
    apply lookup_update_field_eq. }
  apply (valid_queue_intro _ ne de np dp);
    try (rewrite lookup_update_field_ne by congruence; assumption); assumption.
Qed.

Lemma keeps_OfflineQueue_addEntry entry :
  keeps queue_ok (OfflineQueue_addEntry entry) (fun _ => True).
Proof.
  unfold OfflineQueue_addEntry.
  eapply keeps_bind; [apply keeps_OfflineQueue_get|]. intros q Hq.
  eapply keeps_bind; [apply keeps_Date_now|]. intros now _.
  eapply keeps_bind.
  - apply (keeps_lift _ _ (fun q' => valid_queue q' = true)).
    intros q' Hpush. eapply push_onto_valid; [exact Hq| |exact Hpush]. reflexivity.
  - intros q' Hq'. eapply keeps_seq; [apply keeps_OfflineQueue_set, Hq'|].
    apply keeps_ret. exact I.
Qed.

Lemma keeps_OfflineQueue_addProduct product :
  keeps queue_ok (OfflineQueue_addProduct product) (fun _ => True).
Proof.
  unfold OfflineQueue_addProduct.
  eapply keeps_bind; [apply keeps_OfflineQueue_get|]. intros q Hq.
  eapply keeps_bind; [apply keeps_Date_now|]. intros now _.
  eapply keeps_bind.
  - apply (keeps_lift _ _ (fun q' => valid_queue q' = true)).
    intros q' Hpush. eapply push_onto_valid; [exact Hq| |exact Hpush]. reflexivity.
  - intros q' Hq'. eapply keeps_seq; [apply keeps_OfflineQueue_set, Hq'|].
    apply keeps_ret. exact I.
Qed.

Lemma keeps_OfflineQueue_deleteEntry entryId :
  keeps queue_ok (OfflineQueue_deleteEntry entryId) (fun _ => True).
Proof.
  unfold OfflineQueue_deleteEntry.
  eapply keeps_bind; [apply keeps_OfflineQueue_get|]. intros q Hq.
  eapply keeps_bind with (Q := fun q' => valid_queue q' = true).
  - destruct (startsWith (js_toString entryId) "temp_").
    + apply keeps_lift. intros q'.
      destruct (valid_queue_inv q Hq)
        as (fs & ne & de & np & dp & -> & L1 & L2 & L3 & L4 & H1 & H2).
      simpl. rewrite L1. simpl.
      rewrite (filter_items_objects (survives entryId));
        [|intros [| | | | |efs] He; try discriminate; reflexivity|exact H1].
      simpl. intros [= <-].
      apply (valid_queue_intro _ (List.filter (survives entryId) ne) de np dp);
        try (rewrite lookup_update_field_ne by discriminate; assumption); try assumption.
      * apply lookup_update_field_eq.
      * apply forallb_filter, H1.
    + apply keeps_lift. intros q' Hpush.
      eapply push_onto_valid; [exact Hq| |exact Hpush]. intros [?|?]; discriminate.
  - intros q' Hq'. apply keeps_OfflineQueue_set, Hq'.
Qed.

Lemma keeps_OfflineQueue_hasChanges : keeps queue_ok OfflineQueue_hasChanges (fun _ => True).
Proof.
  unfold OfflineQueue_hasChanges.
  eapply keeps_bind; [apply keeps_OfflineQueue_get|]. intros q _.
  apply keeps_lift. auto.
Qed.

Lemma keeps_AppCache_get : keeps queue_ok AppCache_get (fun _ => True).
Proof. intros w Hw. rewrite AppCache_get_eq. split; auto. Qed.

Lemma keeps_AppCache_set data : keeps queue_ok (AppCache_set data) (fun _ => True).
Proof.
  unfold AppCache_set.
  eapply keeps_bind; [apply keeps_Date_now|]. intros now _.
  destruct (and_then _ _) as [stamped|e]; [|apply keeps_ret; exact I].
  apply keeps_try.
  - eapply keeps_seq; [apply keeps_cache_write|]. apply keeps_ret. exact I.
  - intros e. apply keeps_ret. exact I.
Qed.

(** The five operations, one by one. *)
Lemma keeps_API_syncAll : keeps queue_ok API_syncAll (fun _ => True).
Proof.
  apply keeps_try.
  - eapply keeps_bind; [apply keeps_fetch|]. intros r _.
    destruct (negb (ok r)); [apply keeps_throw|].
    eapply keeps_bind; [apply keeps_JSON_parse|]. intros result _.
    eapply keeps_bind; [apply (keeps_lift _ _ (fun _ => True)); auto|]. intros success _.
    destruct (truthy success).
    + eapply keeps_bind; [apply keeps_AppCache_set|]. intros d _.
      apply keeps_lift. auto.
    + eapply keeps_bind; [apply (keeps_lift _ _ (fun _ => True)); auto|]. intros err _.
      apply keeps_throw.
  - intros e. eapply keeps_bind; [apply keeps_AppCache_get|]. intros c _.
    destruct (truthy (Some c)); [apply keeps_lift; auto|apply keeps_ret; exact I].
Qed.

Lemma keeps_API_pushChanges : keeps queue_ok API_pushChanges (fun _ => True).
Proof.
  eapply keeps_bind; [apply keeps_OfflineQueue_hasChanges|]. intros changes _.
  destruct (negb changes); [apply keeps_ret; exact I|].
  apply keeps_try.
  - eapply keeps_bind; [apply keeps_OfflineQueue_get|]. intros q _.
    eapply keeps_bind; [apply keeps_fetch|]. intros r _.
    destruct (ok r).
    + eapply keeps_seq; [apply keeps_OfflineQueue_clear|]. apply keeps_ret. exact I.
    + apply keeps_ret. exact I.
  - intros e. apply keeps_ret. exact I.
Qed.

Lemma keeps_API_addEntry entry : keeps queue_ok (API_addEntry entry) (fun _ => True).
Proof.
  apply keeps_try.
  - eapply keeps_bind; [apply keeps_fetch|]. intros r _.
    destruct (ok r); [|apply keeps_throw].
    eapply keeps_bind; [apply keeps_JSON_parse|]. intros result _.
    eapply keeps_bind; [apply (keeps_lift _ _ (fun _ => True)); auto|]. intros c _.
    apply keeps_ret. exact I.
  - intros e. eapply keeps_bind; [apply keeps_OfflineQueue_addEntry|].
    intros [tempId entry'] _. apply keeps_ret. exact I.
Qed.

Lemma keeps_API_deleteEntry entryId : keeps queue_ok (API_deleteEntry entryId) (fun _ => True).
Proof.
  apply keeps_try.
  - eapply keeps_bind; [apply keeps_fetch|]. intros r _. apply keeps_ret. exact I.
  - intros e. eapply keeps_seq; [apply keeps_OfflineQueue_deleteEntry|].
    apply keeps_ret. exact I.
Qed.

Lemma keeps_API_addProduct product : keeps queue_ok (API_addProduct product) (fun _ => True).
Proof.
  apply keeps_try.
  - eapply keeps_bind; [apply keeps_fetch|]. intros r _.
    destruct (ok r); [|apply keeps_throw].
    eapply keeps_bind; [apply keeps_JSON_parse|]. intros result _.
    eapply keeps_bind; [apply (keeps_lift _ _ (fun _ => True)); auto|]. intros c _.
    apply keeps_ret. exact I.
  - intros e. eapply keeps_bind; [apply keeps_OfflineQueue_addProduct|].
    intros [tempId product'] _. apply keeps_ret. exact I.
Qed.

(** X27.  Every operation of the core leaves the queue cell missing,
    undeserializable or holding a valid queue, however it ends. *)
Theorem queue_cell_invariant :
  keeps queue_ok API_syncAll (fun _ => True)
  /\ keeps queue_ok API_pushChanges (fun _ => True)
  /\ (forall entry, keeps queue_ok (API_addEntry entry) (fun _ => True))
  /\ (forall entryId, keeps queue_ok (API_deleteEntry entryId) (fun _ => True))
  /\ (forall product, keeps queue_ok (API_addProduct product) (fun _ => True)).
Proof.
  split; [apply keeps_API_syncAll|].
  split; [apply keeps_API_pushChanges|].
  split; [apply keeps_API_addEntry|].
  split; [apply keeps_API_deleteEntry|apply keeps_API_addProduct].
Qed.

End QueueInvariant.

(** Every world the program reaches has the queue cell in one of its
    three states. *)
Lemma reached_queue_ok `{host : Host} (w : world) : reached w -> queue_ok w.
Proof.
  induction 1 as [w H|w w' _ IH E|w _ IH|w _ IH|w entry _ IH|w entryId _ IH|w product _ IH].
  - unfold queue_ok. destruct (storage w !! QUEUE_KEY) as [[| |q]|];
      try discriminate; constructor.
  - unfold queue_ok. rewrite E. exact IH.
  - apply (keeps_API_syncAll w IH).
  - apply (keeps_API_pushChanges w IH).
  - apply (keeps_API_addEntry entry w IH).
  - apply (keeps_API_deleteEntry entryId w IH).
  - apply (keeps_API_addProduct product w IH).
Qed.

(** * The specified properties *)

Section Claims.

Context {host : Host}.

(** C8, as the code has it.  [getQueue] never raises and leaves the world
    as it is.  When the persisted value is missing or does not
    deserialize, it returns the empty queue, all four lists empty; when it
    deserializes, it returns the value as parsed, unchecked.  So the
    queue it returns is structurally valid in every world the program
    reaches, from a cell that is missing or does not deserialize through
    any run of its operations. *)
Theorem getQueue_valid_where_program_writes (w : world) :
  exists q,
    OfflineQueue_get w = (Ret q, w)
    /\ (deserializes (storage w !! QUEUE_KEY) = false ->
        q = empty_queue
        /\ array_of "new_entries" q = Some []
        /\ array_of "deleted_entries" q = Some []
        /\ array_of "new_products" q = Some []
        /\ array_of "deleted_products" q = Some [])
    /\ (forall v, storage w !! QUEUE_KEY = Some (Json v) -> q = v)
    /\ (reached w -> valid_queue q = true).
Proof.
  exists (stored_queue w). split; [apply OfflineQueue_get_eq|]. split; [|split].
  - unfold stored_queue, deserializes.
    destruct (storage w !! QUEUE_KEY) as [[| |q]|]; intros H;
      try discriminate; repeat split; reflexivity.
  - intros v Hv. unfold stored_queue. rewrite Hv. reflexivity.
  - intros H. apply queue_ok_valid, reached_queue_ok, H.
Qed.

(** C9.  For an id that does not match the temp-id pattern, and every
    state of the queue, [dequeueEntry] appends the id to
    [deleted_entries] and leaves [new_entries] (and the two product
    lists) as they were. *)
Theorem dequeueEntry_real_id_appends (w : world) (entryId : json) :
  queue_ok w -> room_for_queue w ->
  startsWith (js_toString entryId) "temp_" = false ->
  exists w' de,
    OfflineQueue_deleteEntry entryId w = (Ret tt, w')
    /\ array_of "deleted_entries" (stored_queue w) = Some de
    /\ array_of "deleted_entries" (stored_queue w') = Some (de ++ [entryId])
    /\ array_of "new_entries" (stored_queue w') = array_of "new_entries" (stored_queue w).
Proof.
  intros Hok Hroom Hid.
  destruct (dequeue_real_appends w entryId Hok Hroom Hid)
    as (w' & de & Hrun & Hde & Hde' & Hne & _).
  exists w', de. auto.
Qed.

(** C10.  For a temp-pattern id [t], [dequeueEntry(t)] removes every
    entry of [new_entries] whose temp id is [t] and keeps the others, in
    order.  In particular two entries enqueued within the same
    millisecond get one temp id, and a single [dequeueEntry] with that id
    removes both. *)
Theorem dequeueEntry_temp_id_removes_all (w : world) (t : string) :
  queue_ok w -> room_for_queue w -> startsWith t "temp_" = true ->
  (exists w' ne,
     OfflineQueue_deleteEntry (JStr t) w = (Ret tt, w')
     /\ array_of "new_entries" (stored_queue w) = Some ne
     /\ array_of "new_entries" (stored_queue w') = Some (List.filter (survives (JStr t)) ne)
     /\ (forall e, In e (List.filter (survives (JStr t)) ne) <->
                   In e ne /\ tempId_of e <> Some (JStr t))
     /\ array_of "deleted_entries" (stored_queue w') = array_of "deleted_entries" (stored_queue w))
  /\ (forall e1 e2 : object,
        exists t' e1' e2' w1 w2 w3 ne,
          OfflineQueue_addEntry e1 w = (Ret (JStr t', e1'), w1)
          /\ clock w1 = clock w
          /\ OfflineQueue_addEntry e2 w1 = (Ret (JStr t', e2'), w2)
          /\ startsWith t' "temp_" = true
          /\ array_of "new_entries" (stored_queue w) = Some ne
          /\ array_of "new_entries" (stored_queue w2) = Some (ne ++ [JObj e1'; JObj e2'])
          /\ OfflineQueue_deleteEntry (JStr t') w2 = (Ret tt, w3)
          /\ array_of "new_entries" (stored_queue w3) = Some (List.filter (survives (JStr t')) ne)).
Proof.
  intros Hok Hroom Hid. split.
  - destruct (dequeue_temp_filters w (JStr t) Hok Hroom Hid) as (w' & ne & Hrun & Hne & Hne' & Hde & _).
    exists w', ne. do 3 (split; [assumption|]). split; [|assumption].
    intros e. rewrite List.filter_In, survives_spec. reflexivity.
  - intros e1 e2.
    destruct (enqueue_appends w e1 Hok Hroom)
      as (w1 & ne & Hadd1 & Hne & Hne1 & _ & _ & _ & Hclock & Hok1 & Hroom1).
    destruct (enqueue_appends w1 e2 Hok1 Hroom1)
      as (w2 & ne1 & Hadd2 & Hne1' & Hne2 & _ & _ & _ & _ & Hok2 & Hroom2).
    rewrite Hclock in Hadd2, Hne2.
    rewrite Hne1 in Hne1'. injection Hne1' as <-.
    destruct (dequeue_temp_filters w2 (JStr (temp_id (clock w))) Hok2 Hroom2 (temp_id_startsWith _))
      as (w3 & ne2 & Hdel & Hne2' & Hne3 & _).
    rewrite Hne2 in Hne2'. injection Hne2' as <-.
    eexists _, _, _, w1, w2, w3, ne.
    split; [exact Hadd1|]. split; [exact Hclock|]. split; [exact Hadd2|].
    split; [apply temp_id_startsWith|]. split; [exact Hne|].
    split; [rewrite Hne2, <- List.app_assoc; reflexivity|].
    split; [exact Hdel|].
    rewrite Hne3. rewrite !List.filter_app. simpl.
    rewrite !survives_stamped. rewrite !List.app_nil_r. reflexivity.
Qed.

(** C7.  Starting from a queue with no pending changes, [enqueueEntry]
    followed at once by [dequeueEntry] with the temp id it returned
    leaves [new_entries] empty and [hasChanges()] false. *)
Theorem enqueue_then_dequeue_leaves_no_changes (w : world) (entry : object) :
  queue_ok w -> room_for_queue w -> pending (stored_queue w) = 0%nat ->
  exists t entry' w1 w2,
    OfflineQueue_addEntry entry w = (Ret (JStr t, entry'), w1)
    /\ OfflineQueue_deleteEntry (JStr t) w1 = (Ret tt, w2)
    /\ array_of "new_entries" (stored_queue w2) = Some []
    /\ OfflineQueue_hasChanges w2 = (Ret false, w2).
Proof.
  intros Hok Hroom Hnone.
  destruct (enqueue_appends w entry Hok Hroom)
    as (w1 & ne & Hadd & Hne & Hne1 & Hde1 & Hnp1 & Hdp1 & _ & Hok1 & Hroom1).
  destruct (dequeue_temp_filters w1 (JStr (temp_id (clock w))) Hok1 Hroom1 (temp_id_startsWith _))
    as (w2 & ne1 & Hdel & Hne1' & Hne2 & Hde2 & Hnp2 & Hdp2 & Hok2 & _).
  rewrite Hne1 in Hne1'. injection Hne1' as <-.
  exists (temp_id (clock w)), (update_field "_tempId" (JStr (temp_id (clock w))) entry), w1, w2.
  split; [exact Hadd|]. split; [exact Hdel|].
  assert (ne = []) as ->.
  { unfold pending in Hnone. rewrite Hne in Hnone. simpl in Hnone.
    destruct ne; [reflexivity|simpl in Hnone; lia]. }
  simpl in Hne2. rewrite survives_stamped in Hne2.
  split; [exact Hne2|].
  rewrite (hasChanges_run w2 (queue_ok_valid _ Hok2)).
  replace (pending (stored_queue w2)) with (pending (stored_queue w));
    [rewrite Hnone; reflexivity|].
  unfold pending. rewrite Hne2, Hde2, Hde1, Hnp2, Hnp1, Hdp2, Hdp1, Hne. reflexivity.
Qed.

(** C3.  For a non-empty pending queue [pushChanges] sends the whole
    queue in one push.  When the gateway accepts it the four lists are
    cleared and the result is success; otherwise the result is failure
    and the storage is exactly what it was. *)
Theorem pushChanges_sends_all_clears_on_success (w : world) :
  queue_ok w -> pending (stored_queue w) <> 0%nat ->
  exists w',
    API_pushChanges w = (Ret (push_accepted w), w')
    /\ sent w' = sent w ++ [push_request w]
    /\ (push_accepted w = true ->
        storage w' = delete QUEUE_KEY (storage w)
        /\ array_of "new_entries" (stored_queue w') = Some []
        /\ array_of "deleted_entries" (stored_queue w') = Some []
        /\ array_of "new_products" (stored_queue w') = Some []
        /\ array_of "deleted_products" (stored_queue w') = Some []
        /\ OfflineQueue_hasChanges w' = (Ret false, w'))
    /\ (push_accepted w = false -> storage w' = storage w).
Proof.
  intros Hok Hsome.
  unfold API_pushChanges.
  rewrite (bind_ret _ _ _ _ _ (hasChanges_run w (queue_ok_valid _ Hok))).
  destruct (Nat.eqb_spec (pending (stored_queue w)) 0) as [E|_]; [contradiction|]. simpl.
  unfold push_accepted.
  destruct (remote w (push_request w)) as [r|] eqn:Hr.
  - assert (Hrun : (let* queue := OfflineQueue_get in
                    let* response := fetch (http_post "/api/sync" (JSON_stringify queue)) in
                    if ok response then OfflineQueue_clear;; mret true else mret false) w
                   = (if ok r
                      then (Ret true, with_storage (with_sent w (sent w ++ [push_request w]))
                                        (delete QUEUE_KEY (storage w)))
                      else (Ret false, with_sent w (sent w ++ [push_request w])))).
    { rewrite (bind_ret _ _ _ _ _ (OfflineQueue_get_eq w)).
      rewrite (bind_ret _ _ _ _ _ (fetch_reply _ _ _ Hr)).
      destruct (ok r); reflexivity. }
    destruct (ok r) eqn:Hokr.
    + eexists. split; [apply (try_ret _ _ _ _ _ Hrun)|].
      split; [reflexivity|]. split; [|discriminate].
      intros _. split; [reflexivity|].
      assert (Hq : stored_queue (with_storage (with_sent w (sent w ++ [push_request w]))
                                  (delete QUEUE_KEY (storage w))) = empty_queue).
      { unfold stored_queue. simpl. rewrite lookup_delete_eq. reflexivity. }
      rewrite Hq. do 4 (split; [reflexivity|]).
      rewrite hasChanges_run; rewrite Hq; reflexivity.
    + eexists. split; [apply (try_ret _ _ _ _ _ Hrun)|].
      split; [reflexivity|]. split; [discriminate|]. intros _. reflexivity.
  - assert (Hrun : (let* queue := OfflineQueue_get in
                    let* response := fetch (http_post "/api/sync" (JSON_stringify queue)) in
                    if ok response then OfflineQueue_clear;; mret true else mret false) w
                   = (Throw TypeError, with_sent w (sent w ++ [push_request w]))).
    { rewrite (bind_ret _ _ _ _ _ (OfflineQueue_get_eq w)).
      apply bind_throw. apply fetch_fails. exact Hr. }
    eexists. split; [rewrite (try_throw _ _ _ _ _ Hrun); reflexivity|].
    split; [reflexivity|]. split; [discriminate|]. intros _. reflexivity.
Qed.

(** C4, as the code has it.  The gateway create fails when the request
    is rejected, the reply is not a 2xx reply, or its body is not JSON or
    is [null].  Then [addEntry] stamps the input in place with [_tempId],
    an id of the temp-id format, and returns a copy of the stamped input
    merged with [id], the same temp id, and [_offline: true]; every other
    property of the result is the input's.  The stamped input, which is
    the input with [_tempId] set and every other property as given, is
    appended to [new_entries]: starting from an empty queue it is the
    only item. *)
Theorem addEntry_offline_provisional (w : world) (entry : object) :
  queue_ok w -> room_for_queue w -> created w entry = None ->
  exists w' ne,
    let t := temp_id (clock w) in
    let stamped_entry := update_field "_tempId" (JStr t) entry in
    let result :=
      update_field "_offline" (JBool true) (update_field "id" (JStr t) stamped_entry) in
    API_addEntry entry w = (Ret (Some (JObj result), stamped_entry), w')
    /\ startsWith t "temp_" = true
    /\ lookup_field "id" result = Some (JStr t)
    /\ lookup_field "_offline" result = Some (JBool true)
    /\ lookup_field "_tempId" result = Some (JStr t)
    /\ (forall k, k <> "id" -> k <> "_offline" -> k <> "_tempId" ->
        lookup_field k result = lookup_field k entry)
    /\ array_of "new_entries" (stored_queue w) = Some ne
    /\ array_of "new_entries" (stored_queue w') = Some (ne ++ [JObj stamped_entry])
    /\ (pending (stored_queue w) = 0%nat ->
        array_of "new_entries" (stored_queue w') = Some [JObj stamped_entry])
    /\ sent w' = sent w ++ [create_request entry]
    /\ lookup_field "_tempId" stamped_entry = Some (JStr t)
    /\ (forall k, k <> "_tempId" -> lookup_field k stamped_entry = lookup_field k entry)
    /\ (created w entry = None <->
        match remote w (create_request entry) with
        | None => True
        | Some r => ok r = false \/ body r = EmptyText \/ body r = Malformed
                    \/ body r = Json JNull
        end).
Proof.
  intros Hok Hroom Hfail.
  destruct (create_fails_throws w entry Hfail) as [e Hthrow].
  set (w1 := with_sent w (sent w ++ [create_request entry])) in *.
  destruct (enqueue_appends w1 entry (queue_ok_sent _ _ Hok) (room_for_queue_sent _ _ Hroom))
    as (w' & ne & Hadd & Hne & Hne' & _ & _ & _ & _ & _ & _).
  assert (Hsent : sent w' = sent w ++ [create_request entry]).
  { unfold OfflineQueue_addEntry in Hadd. 
    destruct (valid_queue_inv _ (queue_ok_valid _ (queue_ok_sent w (sent w ++ [create_request entry]) Hok)))
      as (fs & ne0 & de & np & dp & Hq & L1 & _).
    pose proof (addEntry_run w1 entry fs ne0 Hq L1 (room_for_queue_sent _ _ Hroom)) as Hrun.
    simpl in Hrun. unfold OfflineQueue_addEntry in Hrun. rewrite Hrun in Hadd.
    injection Hadd as <-. reflexivity. }
  exists w', ne. cbv zeta.
  split.
  { unfold API_addEntry. rewrite (try_throw _ _ _ _ _ Hthrow).
    rewrite (bind_ret _ _ _ _ _ Hadd). reflexivity. }
  split; [apply temp_id_startsWith|].
  split; [rewrite lookup_update_field_ne by discriminate; apply lookup_update_field_eq|].
  split; [apply lookup_update_field_eq|].
  split; [rewrite !lookup_update_field_ne by discriminate; apply lookup_update_field_eq|].
  split; [intros k H1 H2 H3; rewrite !lookup_update_field_ne by congruence; reflexivity|].
  split; [exact Hne|]. split; [exact Hne'|]. split.
  { intros Hnone. rewrite Hne'.
    assert (ne = []) as ->; [|reflexivity].
    unfold pending in Hnone. change (stored_queue w1) with (stored_queue w) in Hne.
    rewrite Hne in Hnone. simpl in Hnone. destruct ne; [reflexivity|simpl in Hnone; lia]. }
  split; [exact Hsent|].
  split; [apply lookup_update_field_eq|].
  split; [intros k Hk; apply lookup_update_field_ne; congruence|].
  apply create_fails_when.
Qed.

(** X29.  What [API.deleteEntry] does.  When the delete request itself
    fails (no reply), it records the deletion in the pending queue, by the
    temp-id branch, and returns true.  When the gateway replies, it
    returns the reply's [ok] flag, false for a non-2xx status, and the
    storage is untouched. *)
Lemma deleteEntry_queues_when_unreachable (w : world) (entryId : json) :
  queue_ok w -> room_for_queue w ->
  (remote w (delete_request entryId) = None ->
   exists w' ne de,
     API_deleteEntry entryId w = (Ret true, w')
     /\ array_of "new_entries" (stored_queue w) = Some ne
     /\ array_of "deleted_entries" (stored_queue w) = Some de
     /\ (if startsWith (js_toString entryId) "temp_"
         then array_of "new_entries" (stored_queue w') = Some (List.filter (survives entryId) ne)
              /\ array_of "deleted_entries" (stored_queue w') = Some de
         else array_of "new_entries" (stored_queue w') = Some ne
              /\ array_of "deleted_entries" (stored_queue w') = Some (de ++ [entryId])))
  /\ (forall r, remote w (delete_request entryId) = Some r ->
      API_deleteEntry entryId w = (Ret (ok r), with_sent w (sent w ++ [delete_request entryId]))).
Proof.
  intros Hok Hroom. split.
  - intros Hr.
    set (w1 := with_sent w (sent w ++ [delete_request entryId])).
    assert (Hthrow : (let* response := fetch (http_delete ("/api/delete_entry/" +:+ js_toString entryId)) in
                      mret (ok response)) w = (Throw TypeError, w1)).
    { apply bind_throw. apply fetch_fails. exact Hr. }
    unfold API_deleteEntry. rewrite (try_throw _ _ _ _ _ Hthrow).
    pose proof (queue_ok_sent w (sent w ++ [delete_request entryId]) Hok) as Hok1.
    pose proof (room_for_queue_sent w (sent w ++ [delete_request entryId]) Hroom) as Hroom1.
    fold w1 in Hok1, Hroom1.
    destruct (valid_queue_inv _ (queue_ok_valid _ Hok))
      as (fs & ne & de & np & dp & Hq & L1 & L2 & _).
    assert (Hne : array_of "new_entries" (stored_queue w) = Some ne)
      by (rewrite Hq; unfold array_of; rewrite L1; reflexivity).
    assert (Hde : array_of "deleted_entries" (stored_queue w) = Some de)
      by (rewrite Hq; unfold array_of; rewrite L2; reflexivity).
    destruct (startsWith (js_toString entryId) "temp_") eqn:Hid.
    + destruct (dequeue_temp_filters w1 entryId Hok1 Hroom1 Hid)
        as (w' & ne' & Hdel & Hne1 & Hne2 & Hde2 & _).
      change (stored_queue w1) with (stored_queue w) in Hne1, Hde2.
      rewrite Hne in Hne1. injection Hne1 as <-.
      exists w', ne, de. rewrite (seq_ret _ _ _ _ _ Hdel).
      split; [reflexivity|]. split; [exact Hne|]. split; [exact Hde|].
      split; [exact Hne2|]. rewrite Hde2. exact Hde.
    + destruct (dequeue_real_appends w1 entryId Hok1 Hroom1 Hid)
        as (w' & de' & Hdel & Hde1 & Hde2 & Hne2 & _).
      change (stored_queue w1) with (stored_queue w) in Hde1, Hne2.
      rewrite Hde in Hde1. injection Hde1 as <-.
      exists w', ne, de. rewrite (seq_ret _ _ _ _ _ Hdel).
      split; [reflexivity|]. split; [exact Hne|]. split; [exact Hde|].
      split; [rewrite Hne2; exact Hne|exact Hde2].
  - intros r Hr. unfold API_deleteEntry.
    apply try_ret. rewrite (bind_ret _ _ _ _ _ (fetch_reply _ _ _ Hr)). reflexivity.
Qed.


(** C6.  When the pull fails, [syncAll] returns the data of the cached
    snapshot of the current schema version, whatever its age, and null
    when there is none.  When the pull succeeds, it returns the data of
    the pulled result and, the storage taking the write, stores the
    result stamped with the version and the current time: a snapshot that
    is valid at once. *)
Theorem syncAll_falls_back_to_cache (w : world) :
  (pulled w = None ->
   API_syncAll w =
     (Ret (match cached_snapshot w with
           | Some fs => lookup_field "data" fs
           | None => Some JNull
           end),
      with_sent w (sent w ++ [http_get "/api/sync"])))
  /\ (forall result, pulled w = Some result ->
      exists w' data,
        API_syncAll w = (Ret data, w')
        /\ get_prop (Some result) "data" = Ret data
        /\ (accepts w CACHE_KEY (Json (stamped (clock w) result)) = true ->
            storage w' = <[CACHE_KEY := Json (stamped (clock w) result)]> (storage w)
            /\ snapshot_version w' = Some (JStr CACHE_VERSION)
            /\ (exists fs, cached_snapshot w' = Some fs /\ lookup_field "data" fs = data
                           /\ lookup_field "cachedAt" fs = Some (JStr (toISOString (clock w))))
            /\ (toISOString (clock w) <> "" ->
                Date_parse (toISOString (clock w)) = Some (clock w) ->
                AppCache_isValid w' = (Ret true, w')))).
Proof.
  split.
  - intros Hp. destruct (pull_fails_throws w Hp) as [e Hthrow].
    unfold API_syncAll. rewrite (try_throw _ _ _ _ _ Hthrow).
    rewrite (bind_ret _ _ _ _ _ (AppCache_get_eq _)).
    unfold cached_value.
    change (cached_snapshot (with_sent w (sent w ++ [http_get "/api/sync"])))
      with (cached_snapshot w).
    destruct (cached_snapshot w) as [fs|]; reflexivity.
  - intros result Hp.
    destruct (pulled_object w result Hp) as (fs & r & -> & Hr & Hokr & Hbody & Hsucc).
    set (w1 := with_sent w (sent w ++ [http_get "/api/sync"])).
    set (st := stamped (clock w) (JObj fs)).
    assert (Hdata : get_prop (Some st) "data" = Ret (lookup_field "data" fs)).
    { unfold st. simpl. rewrite !lookup_update_field_ne by discriminate. reflexivity. }
    assert (Hset : AppCache_set (JObj fs) w1 =
              (Ret st, if accepts w CACHE_KEY (Json st)
                       then with_storage w1 (<[CACHE_KEY := Json st]> (storage w))
                       else w1)).
    { unfold AppCache_set.
      rewrite (bind_ret Date_now _ w1 (clock w) w1 eq_refl). simpl.
      unfold try_catch, localStorage_setItem, JSON_stringify, mbind, M_bind.
      change (accepts w1) with (accepts w). unfold st, stamped.
      destruct (accepts w CACHE_KEY _); reflexivity. }
    exists (if accepts w CACHE_KEY (Json st)
            then with_storage w1 (<[CACHE_KEY := Json st]> (storage w)) else w1),
           (lookup_field "data" fs).
    split.
    { unfold API_syncAll. apply try_ret.
      rewrite (bind_ret _ _ _ _ _ (fetch_reply _ _ _ Hr)). rewrite Hokr. simpl.
      unfold response_json. rewrite Hbody. simpl.
      unfold bind at 1. unfold mbind at 1. unfold M_bind at 1. unfold mret, M_ret.
      unfold bind at 1. unfold mbind at 1. unfold M_bind at 1. unfold lift at 1.
      rewrite Hsucc. fold w1.
      rewrite (bind_ret _ _ _ _ _ Hset).
      unfold lift. f_equal. exact Hdata. }
    split; [reflexivity|].
    intros Hacc. rewrite Hacc.
    split; [reflexivity|].
    assert (Hfields : snapshot_fields (with_storage w1 (<[CACHE_KEY:=Json st]> (storage w)))
                      = Some (update_field "cachedAt" (JStr (toISOString (clock w)))
                                (update_field "version" (JStr CACHE_VERSION) fs))).
    { unfold snapshot_fields. simpl. rewrite lookup_insert_eq. reflexivity. }
    assert (Hver : snapshot_version (with_storage w1 (<[CACHE_KEY:=Json st]> (storage w)))
                   = Some (JStr CACHE_VERSION)).
    { unfold snapshot_version. rewrite Hfields. simpl.
      rewrite lookup_update_field_ne by discriminate. apply lookup_update_field_eq. }
    split; [exact Hver|].
    assert (Hc : cached_snapshot (with_storage w1 (<[CACHE_KEY:=Json st]> (storage w)))
                 = Some (update_field "cachedAt" (JStr (toISOString (clock w)))
                           (update_field "version" (JStr CACHE_VERSION) fs)))
      by (apply cached_snapshot_spec; auto).
    split.
    { eexists. split; [exact Hc|]. split.
      - rewrite !lookup_update_field_ne by discriminate. reflexivity.
      - apply lookup_update_field_eq. }
    intros Hne Hround. rewrite AppCache_isValid_eq, Hc.
    unfold snapshot_time. rewrite Hfields. simpl. rewrite lookup_update_field_eq. simpl.
    destruct (String.eqb_spec (toISOString (clock w)) "") as [E|_]; [contradiction|]. simpl.
    rewrite Hround. f_equal. f_equal. apply Z.ltb_lt. unfold fiveMinutes. lia.
Qed.

End Claims.

(** * Worked examples *)

(** ** The sample worlds *)

Lemma busy_world_ok : queue_ok busy_world.
Proof. unfold queue_ok. vm_compute. apply cell_queue. reflexivity. Defined.

Lemma fresh_world_ok : queue_ok fresh_world.
Proof. unfold queue_ok. vm_compute. apply cell_missing. Defined.

Lemma answering_ok status : queue_ok (answering status).
Proof. exact busy_world_ok. Defined.

Lemma offline_room cells now : room_for_queue (offline cells now).
Proof. intros t. reflexivity. Defined.

Lemma busy_new_entries :
  array_of "new_entries" (stored_queue busy_world)
  = Some [queued "temp_123" apple; queued "temp_456" pear; queued "temp_123" pear].
Proof. vm_compute. reflexivity. Defined.

Lemma busy_deleted_entries :
  array_of "deleted_entries" (stored_queue busy_world) = Some [JNum 7].
Proof. vm_compute. reflexivity. Defined.

Lemma fresh_new_entries : array_of "new_entries" (stored_queue fresh_world) = Some [].
Proof. vm_compute. reflexivity. Defined.

(** ** Witnesses *)

(** Deleting the entry number 17 while three entries and one deletion are
    queued. *)
Lemma dequeueEntry_real_id_appends_witness :
  queue_ok busy_world /\ room_for_queue busy_world
  /\ startsWith (js_toString (JNum 17)) "temp_" = false
  /\ exists w',
       OfflineQueue_deleteEntry (JNum 17) busy_world = (Ret tt, w')
       /\ array_of "deleted_entries" (stored_queue w') = Some [JNum 7; JNum 17]
       /\ array_of "new_entries" (stored_queue w')
          = Some [queued "temp_123" apple; queued "temp_456" pear; queued "temp_123" pear].
Proof.
  assert (H1 : queue_ok busy_world) by exact busy_world_ok.
  assert (H2 : room_for_queue busy_world) by apply offline_room.
  assert (H3 : startsWith (js_toString (JNum 17)) "temp_" = false) by (vm_compute; reflexivity).
  split; [exact H1|]. split; [exact H2|]. split; [exact H3|].
  destruct (dequeueEntry_real_id_appends busy_world (JNum 17) H1 H2 H3)
    as (w' & de & Hrun & Hde & Hde' & Hne).
  rewrite busy_deleted_entries in Hde. injection Hde as <-.
  rewrite busy_new_entries in Hne.
  exists w'. split; [exact Hrun|]. split; [exact Hde'|exact Hne].
Defined.

(** Removing the temp id that two of the three queued entries share. *)
Lemma dequeueEntry_temp_id_removes_all_witness :
  queue_ok busy_world /\ room_for_queue busy_world
  /\ startsWith "temp_123" "temp_" = true
  /\ exists w',
       OfflineQueue_deleteEntry (JStr "temp_123") busy_world = (Ret tt, w')
       /\ array_of "new_entries" (stored_queue w') = Some [queued "temp_456" pear].
Proof.
  assert (H1 : queue_ok busy_world) by exact busy_world_ok.
  assert (H2 : room_for_queue busy_world) by apply offline_room.
  assert (H3 : startsWith "temp_123" "temp_" = true) by (vm_compute; reflexivity).
  split; [exact H1|]. split; [exact H2|]. split; [exact H3|].
  destruct (dequeueEntry_temp_id_removes_all busy_world "temp_123" H1 H2 H3)
    as [(w' & ne & Hrun & Hne & Hne' & _) _].
  rewrite busy_new_entries in Hne. injection Hne as <-.
  exists w'. split; [exact Hrun|exact Hne'].
Defined.

(** Enqueueing an apple into nothing and taking it back. *)
Lemma enqueue_then_dequeue_leaves_no_changes_witness :
  queue_ok fresh_world /\ room_for_queue fresh_world
  /\ pending (stored_queue fresh_world) = 0%nat
  /\ exists t entry' w1 w2,
       OfflineQueue_addEntry apple fresh_world = (Ret (JStr t, entry'), w1)
       /\ OfflineQueue_deleteEntry (JStr t) w1 = (Ret tt, w2)
       /\ array_of "new_entries" (stored_queue w2) = Some []
       /\ OfflineQueue_hasChanges w2 = (Ret false, w2).
Proof.
  assert (H1 : queue_ok fresh_world) by exact fresh_world_ok.
  assert (H2 : room_for_queue fresh_world) by apply offline_room.
  assert (H3 : pending (stored_queue fresh_world) = 0%nat) by (vm_compute; reflexivity).
  split; [exact H1|]. split; [exact H2|]. split; [exact H3|].
  exact (enqueue_then_dequeue_leaves_no_changes fresh_world apple H1 H2 H3).
Defined.

(** Pushing the busy queue to a gateway that accepts it. *)
Lemma pushChanges_sends_all_clears_on_success_witness :
  queue_ok (answering true) /\ pending (stored_queue (answering true)) <> 0%nat
  /\ exists w',
       API_pushChanges (answering true) = (Ret true, w')
       /\ sent w' = [push_request busy_world]
       /\ array_of "new_entries" (stored_queue w') = Some []
       /\ array_of "deleted_entries" (stored_queue w') = Some [].
Proof.
  assert (H1 : queue_ok (answering true)) by apply answering_ok.
  assert (H2 : pending (stored_queue (answering true)) <> 0%nat) by (vm_compute; discriminate).
  split; [exact H1|]. split; [exact H2|].
  destruct (pushChanges_sends_all_clears_on_success (answering true) H1 H2)
    as (w' & Hrun & Hsent & Hyes & _).
  destruct (Hyes eq_refl) as (_ & Hne & Hde & _).
  exists w'. split; [exact Hrun|]. split; [exact Hsent|]. split; [exact Hne|exact Hde].
Defined.

(** Adding an apple while offline, nothing queued before. *)
Lemma addEntry_offline_provisional_witness :
  queue_ok fresh_world /\ room_for_queue fresh_world /\ created fresh_world apple = None
  /\ exists w',
       API_addEntry apple fresh_world
       = (Ret (Some (JObj [("product", JStr "apple"); ("weight", JNum 150);
                           ("_tempId", JStr "temp_1700000000000");
                           ("id", JStr "temp_1700000000000"); ("_offline", JBool true)]),
               [("product", JStr "apple"); ("weight", JNum 150);
                ("_tempId", JStr "temp_1700000000000")]), w')
       /\ array_of "new_entries" (stored_queue w')
          = Some [JObj [("product", JStr "apple"); ("weight", JNum 150);
                        ("_tempId", JStr "temp_1700000000000")]].
Proof.
  assert (H1 : queue_ok fresh_world) by exact fresh_world_ok.
  assert (H2 : room_for_queue fresh_world) by apply offline_room.
  assert (H3 : created fresh_world apple = None) by reflexivity.
  split; [exact H1|]. split; [exact H2|]. split; [exact H3|].
  destruct (addEntry_offline_provisional fresh_world apple H1 H2 H3)
    as (w' & ne & Hrun & _ & _ & _ & _ & _ & _ & _ & Hone & _).
  exists w'. split; [exact Hrun|]. apply Hone. vm_compute. reflexivity.
Defined.

(** The queue after an apple was added offline, read back. *)
Lemma getQueue_valid_where_program_writes_witness :
  reached (snd (API_addEntry apple fresh_world))
  /\ exists q,
       fst (OfflineQueue_get (snd (API_addEntry apple fresh_world))) = Ret q
       /\ array_of "new_entries" q
          = Some [JObj [("product", JStr "apple"); ("weight", JNum 150);
                        ("_tempId", JStr "temp_1700000000000")]]
       /\ valid_queue q = true.
Proof.
  assert (H1 : reached (snd (API_addEntry apple fresh_world))).
  { apply reached_addEntry, reached_start. reflexivity. }
  split; [exact H1|].
  destruct (getQueue_valid_where_program_writes (snd (API_addEntry apple fresh_world)))
    as (q & Hget & _ & Hparsed & Hvalid).
  exists q. split; [rewrite Hget; reflexivity|]. split; [|exact (Hvalid H1)].
  rewrite (Hparsed _ eq_refl). reflexivity.
Defined.

(** Deleting the entry number 17 while offline. *)
Lemma deleteEntry_queues_when_unreachable_witness :
  queue_ok busy_world /\ room_for_queue busy_world
  /\ remote busy_world (delete_request (JNum 17)) = None
  /\ exists w',
       API_deleteEntry (JNum 17) busy_world = (Ret true, w')
       /\ array_of "deleted_entries" (stored_queue w') = Some [JNum 7; JNum 17].
Proof.
  assert (H1 : queue_ok busy_world) by exact busy_world_ok.
  assert (H2 : room_for_queue busy_world) by apply offline_room.
  assert (H3 : remote busy_world (delete_request (JNum 17)) = None) by reflexivity.
  split; [exact H1|]. split; [exact H2|]. split; [exact H3|].
  destruct (deleteEntry_queues_when_unreachable busy_world (JNum 17) H1 H2) as [Hoff _].
  destruct (Hoff H3) as (w' & ne & de & Hrun & _ & Hde & Hbranch).
  rewrite busy_deleted_entries in Hde. injection Hde as <-.
  exists w'. split; [exact Hrun|]. exact (proj2 Hbranch).
Defined.

(** ** Where the code parts from the specification *)

(** Which operations return a value under every failure. *)
Section Returns.

Context {host : Host}.

(** X28.  [syncAll] returns a value in every world: whatever the reply
    and whatever the storage holds or refuses, nothing is thrown. *)
Lemma syncAll_always_returns (w : world) : exists v w', API_syncAll w = (Ret v, w').
Proof.
  unfold API_syncAll, try_catch.
  match goal with |- context [match ?m w with _ => _ end] => destruct (m w) as [[v|e] w1] end.
  - eauto.
  - rewrite (bind_ret _ _ _ _ _ (AppCache_get_eq w1)). unfold cached_value.
    destruct (cached_snapshot w1); eexists _, _; reflexivity.
Qed.

(** [pushChanges] returns a value whenever the stored queue is well
    formed. *)
Lemma pushChanges_returns (w : world) :
  queue_ok w -> exists b w', API_pushChanges w = (Ret b, w').
Proof.
  intros Hok. unfold API_pushChanges.
  rewrite (bind_ret _ _ _ _ _ (hasChanges_run w (queue_ok_valid _ Hok))).
  destruct (negb (negb _)); [eexists _, _; reflexivity|].
  unfold try_catch.
  match goal with |- context [match ?m w with _ => _ end] => destruct (m w) as [[v|e] w1] end;
    eexists _, _; reflexivity.
Qed.

(** [addEntry] with the gateway failing and the storage refusing the
    write of the queue: the quota error is the outcome. *)
Lemma addEntry_quota_error_escapes (w : world) (entry : object) :
  queue_ok w -> created w entry = None ->
  (forall t, accepts w QUEUE_KEY t = false) ->
  exists w', API_addEntry entry w = (Throw QuotaExceededError, w').
Proof.
  intros Hok Hfail Hfull.
  destruct (create_fails_throws w entry Hfail) as [e Hthrow].
  unfold API_addEntry. rewrite (try_throw _ _ _ _ _ Hthrow).
  set (w1 := with_sent w (sent w ++ [create_request entry])).
  destruct (valid_queue_inv _ (queue_ok_valid _ Hok))
    as (fs & ne & de & np & dp & Hq & L1 & _).
  assert (Hadd : OfflineQueue_addEntry entry w1 = (Throw QuotaExceededError, w1)).
  { unfold OfflineQueue_addEntry.
    rewrite (bind_ret _ _ _ _ _ (OfflineQueue_get_eq w1)).
    rewrite (bind_ret Date_now _ w1 (clock w1) w1 eq_refl).
    change (stored_queue w1) with (stored_queue w). rewrite Hq.
    rewrite (push_onto_object _ _ _ _ L1).
    unfold bind, mbind, M_bind, lift, OfflineQueue_set, localStorage_setItem.
    change (accepts w1) with (accepts w). rewrite Hfull. reflexivity. }
  exists w1. apply (bind_throw _ _ _ _ _ Hadd).
Qed.

End Returns.

(** C1.  Offline and with the storage full, [API.addEntry] ends in the
    quota error of [OfflineQueue.set]: nothing is returned. *)
Theorem addEntry_storage_failure_escapes :
  fst (API_addEntry apple full_world) = Throw QuotaExceededError.
Proof. vm_compute. reflexivity. Qed.

(** The same holds for [API.addProduct] and [API.deleteEntry]. *)
Example addProduct_storage_failure_escapes :
  fst (API_addProduct apple full_world) = Throw QuotaExceededError.
Proof. vm_compute. reflexivity. Qed.

Example deleteEntry_storage_failure_escapes :
  fst (API_deleteEntry (JNum 17) full_world) = Throw QuotaExceededError.
Proof. vm_compute. reflexivity. Qed.

(** [AppCache.set] does catch the error of the write: it never throws. *)
Lemma AppCache_set_never_throws `{Host} (data : json) (w : world) :
  exists d w', AppCache_set data w = (Ret d, w').
Proof.
  unfold AppCache_set.
  rewrite (bind_ret Date_now _ w (clock w) w eq_refl).
  destruct (and_then _ _) as [stamped|e]; [|eexists _, _; reflexivity].
  unfold try_catch, localStorage_setItem, mbind, M_bind.
  destruct (accepts w CACHE_KEY _); eexists _, _; reflexivity.
Qed.

Example syncAll_survives_full_storage :
  fst (API_syncAll
         {| storage := ∅; accepts := fun _ _ => false; clock := cached_at;
            remote := remote online_world; sent := [] |})
  = Ret (Some day_data).
Proof. vm_compute. reflexivity. Qed.

(** C2.  A gateway that refuses the delete with a non-2xx status:
    [API.deleteEntry] reports the failure and queues nothing, where
    [API.addEntry], [API.addProduct] and [API.syncAll] throw on such a
    reply and take their fallback. *)
Theorem deleteEntry_refused_reports_failure :
  remote (answering false) (delete_request (JNum 17)) = Some {| ok := false; body := EmptyText |}
  /\ exists w',
       API_deleteEntry (JNum 17) (answering false) = (Ret false, w')
       /\ storage w' = storage (answering false)
       /\ array_of "deleted_entries" (stored_queue w') = Some [JNum 7].
Proof.
  split; [reflexivity|].
  eexists. split; [reflexivity|]. split; [reflexivity|]. vm_compute. reflexivity.
Qed.

(** C4.  The provisional object is not the input merged with [id] and
    [_offline] alone: it carries [_tempId] as well, and the queued item is
    not the provisional object. *)
Lemma addEntry_result_is_not_plain_merge :
  exists result entry' w',
    API_addEntry apple fresh_world = (Ret (Some (JObj result), entry'), w')
    /\ lookup_field "_tempId" apple = undefined
    /\ lookup_field "_tempId" result = Some (JStr "temp_1700000000000")
    /\ result <> update_field "_offline" (JBool true)
                   (update_field "id" (JStr "temp_1700000000000") apple)
    /\ array_of "new_entries" (stored_queue w') <> Some [JObj result].
Proof.
  eexists _, _, _. split; [vm_compute; reflexivity|].
  split; [reflexivity|]. split; [reflexivity|].
  split; [vm_compute; discriminate|]. vm_compute. discriminate.
Qed.

(** C8.  The queue cell holding the text [null], put there from outside
    the program: [getQueue] returns [null], which is no queue and has no
    [new_entries]. *)
Lemma getQueue_null_is_no_queue :
  storage null_queue_world !! QUEUE_KEY = Some (Json JNull)
  /\ OfflineQueue_get null_queue_world = (Ret JNull, null_queue_world)
  /\ valid_queue JNull = false
  /\ array_of "new_entries" JNull = None.
Proof.
  split; [reflexivity|]. split; [reflexivity|]. split; reflexivity.
Qed.

(** No run of the program leads there. *)
Example null_queue_world_not_reached : ~ reached null_queue_world.
Proof.
  intros H. apply reached_queue_ok in H. unfold queue_ok in H.
  inversion H as [E|E|E|q Hq E]; discriminate.
Qed.

(** ** The scenarios of the specification, on the reference host *)

Example iso_epoch : toISOString 0 = "1970-01-01T00:00:00.000Z".
Proof. vm_compute. reflexivity. Qed.

Example iso_format_2024 : toISOString cached_at = "2024-02-29T12:34:56.789Z".
Proof. vm_compute. reflexivity. Qed.

Example iso_parse_2024 : Date_parse "2024-02-29T12:34:56.789Z" = Some cached_at.
Proof. vm_compute. reflexivity. Qed.

(** One millisecond short of five minutes the snapshot is valid, at five
    minutes it is not. *)
Example snapshot_valid_before_five_minutes :
  fst (AppCache_isValid (cache_world (5 * 60 * 1000 - 1))) = Ret true.
Proof. vm_compute. reflexivity. Qed.

Example snapshot_invalid_at_five_minutes :
  fst (AppCache_isValid (cache_world (5 * 60 * 1000))) = Ret false.
Proof. vm_compute. reflexivity. Qed.

Example snapshot_missing_invalid : fst (AppCache_isValid fresh_world) = Ret false.
Proof. vm_compute. reflexivity. Qed.

Example snapshot_other_version_invalid :
  fst (AppCache_isValid
         (offline [(CACHE_KEY,
                    Json (JObj [("version", JStr "0.9");
                                ("cachedAt", JStr "2024-02-29T12:34:56.789Z")]))]
                  cached_at))
  = Ret false.
Proof. vm_compute. reflexivity. Qed.

(** A snapshot six minutes old is not valid, and [syncAll], the pull
    failing, returns its data all the same. *)
Example stale_snapshot_is_the_fallback :
  fst (AppCache_isValid (cache_world (6 * 60 * 1000))) = Ret false
  /\ fst (API_syncAll (cache_world (6 * 60 * 1000))) = Ret (Some day_data).
Proof. split; vm_compute; reflexivity. Qed.

Example nothing_cached_gives_null : fst (API_syncAll fresh_world) = Ret (Some JNull).
Proof. vm_compute. reflexivity. Qed.

(** A successful pull is stored, stamped, and is valid at once. *)
Example pull_is_cached :
  exists w',
    API_syncAll online_world = (Ret (Some day_data), w')
    /\ storage w' !! CACHE_KEY = Some (Json snapshot_2024)
    /\ fst (AppCache_isValid w') = Ret true.
Proof. eexists. split; [reflexivity|]. split; vm_compute; reflexivity. Qed.

(** The queue cell: missing, unreadable, and holding a value of another
    shape, which [OfflineQueue.get] hands on as it is. *)
Example getQueue_missing : fst (OfflineQueue_get fresh_world) = Ret empty_queue.
Proof. vm_compute. reflexivity. Qed.

Example getQueue_malformed :
  fst (OfflineQueue_get (offline [(QUEUE_KEY, Malformed)] 0)) = Ret empty_queue.
Proof. vm_compute. reflexivity. Qed.

Example getQueue_other_shape :
  fst (OfflineQueue_get (offline [(QUEUE_KEY, Json JNull)] 0)) = Ret JNull.
Proof. vm_compute. reflexivity. Qed.

(** Two apples added within one millisecond share their temp id; one
    [deleteEntry] takes both out. *)
Example same_millisecond_entries_go_together :
  fst ((API_addEntry apple;; API_addEntry pear;;
        API_deleteEntry (JStr "temp_1700000000000");; OfflineQueue_get) fresh_world)
  = Ret empty_queue.
Proof. vm_compute. reflexivity. Qed.

(** * Further properties of the code *)

(** ** AppCache *)

Section CacheOperations.

Context {host : Host}.

Lemma AppCache_set_object (w : world) (fs : object) :
  AppCache_set (JObj fs) w =
    (Ret (stamped (clock w) (JObj fs)),
     if accepts w CACHE_KEY (Json (stamped (clock w) (JObj fs)))
     then with_storage w (<[CACHE_KEY := Json (stamped (clock w) (JObj fs))]> (storage w))
     else w).
Proof.
  unfold AppCache_set.
  rewrite (bind_ret Date_now _ w (clock w) w eq_refl). simpl.
  unfold try_catch, localStorage_setItem, JSON_stringify, mbind, M_bind.
  destruct (accepts w CACHE_KEY _); reflexivity.
Qed.

Lemma snapshot_written (w : world) (fs : object) :
  cached_snapshot (with_storage w (<[CACHE_KEY := Json (stamped (clock w) (JObj fs))]> (storage w)))
  = Some (update_field "cachedAt" (JStr (toISOString (clock w)))
            (update_field "version" (JStr CACHE_VERSION) fs)).
Proof.
  apply cached_snapshot_spec. split.
  - unfold snapshot_fields. simpl. rewrite lookup_insert_eq. reflexivity.
  - unfold snapshot_version, snapshot_fields. simpl. rewrite lookup_insert_eq. simpl.
    rewrite lookup_update_field_ne by discriminate. apply lookup_update_field_eq.
Qed.

(** X1.  What [AppCache.set] stores, [AppCache.get] reads back: the
    object with [version] and [cachedAt] set by the cache itself, whatever
    the caller had put there, and every other property as the caller gave
    it. *)
Theorem AppCache_set_then_get (w : world) (fs : object) :
  room_for_cache w ->
  exists w' snapshot,
    AppCache_set (JObj fs) w = (Ret (JObj snapshot), w')
    /\ AppCache_get w' = (Ret (JObj snapshot), w')
    /\ lookup_field "version" snapshot = Some (JStr CACHE_VERSION)
    /\ lookup_field "cachedAt" snapshot = Some (JStr (toISOString (clock w)))
    /\ (forall k, k <> "version" -> k <> "cachedAt" ->
        lookup_field k snapshot = lookup_field k fs).
Proof.
  intros Hroom. eexists _, _. split.
  { rewrite AppCache_set_object, Hroom. reflexivity. }
  split.
  { rewrite AppCache_get_eq. unfold cached_value. rewrite snapshot_written. reflexivity. }
  split; [rewrite lookup_update_field_ne by discriminate; apply lookup_update_field_eq|].
  split; [apply lookup_update_field_eq|].
  intros k H1 H2. rewrite !lookup_update_field_ne by congruence. reflexivity.
Qed.

(** X2.  [AppCache.set] never throws.  When the storage refuses the write,
    or the data is [null], it returns with the storage exactly as it
    was. *)
Theorem AppCache_set_fails_softly (data : json) (w : world) :
  exists d w',
    AppCache_set data w = (Ret d, w')
    /\ ((forall t, accepts w CACHE_KEY t = false) \/ data = JNull -> w' = w).
Proof.
  unfold AppCache_set.
  rewrite (bind_ret Date_now _ w (clock w) w eq_refl).
  destruct (and_then _ _) as [st|e] eqn:Hst.
  - unfold try_catch, localStorage_setItem, mbind, M_bind.
    destruct (accepts w CACHE_KEY (JSON_stringify st)) eqn:Hacc.
    + eexists _, _. split; [reflexivity|]. intros [Hfull| ->].
      * rewrite Hfull in Hacc. discriminate.
      * discriminate Hst.
    + eexists _, _. split; [reflexivity|]. reflexivity.
  - eexists _, _. split; reflexivity.
Qed.

(** X3.  A snapshot written at time [t] is valid at every moment less
    than five minutes after [t], and at no moment from five minutes on. *)
Theorem AppCache_valid_for_five_minutes (w : world) (fs : object) (now : Z) :
  room_for_cache w ->
  toISOString (clock w) <> "" ->
  Date_parse (toISOString (clock w)) = Some (clock w) ->
  exists w',
    AppCache_set (JObj fs) w = (Ret (stamped (clock w) (JObj fs)), w')
    /\ AppCache_isValid (at_time now w') = (Ret (now - clock w <? 5 * 60 * 1000), at_time now w').
Proof.
  intros Hroom Hne Hround. eexists. split.
  { rewrite AppCache_set_object, Hroom. reflexivity. }
  rewrite AppCache_isValid_eq.
  set (w' := with_storage w _).
  change (cached_snapshot (at_time now w')) with (cached_snapshot w').
  unfold w'. rewrite snapshot_written.
  unfold snapshot_time, snapshot_fields. simpl. rewrite lookup_insert_eq. simpl.
  rewrite lookup_update_field_eq. simpl.
  destruct (String.eqb_spec (toISOString (clock w)) "") as [E|_]; [contradiction|]. simpl.
  rewrite Hround. reflexivity.
Qed.

(** X4.  After [AppCache.clear] there is no snapshot: [get] returns
    [null] and [isValid] false, whatever was stored before, and every
    other key of the storage is as it was. *)
Theorem AppCache_clear_forgets (w : world) :
  exists w',
    AppCache_clear w = (Ret tt, w')
    /\ AppCache_get w' = (Ret JNull, w')
    /\ AppCache_isValid w' = (Ret false, w')
    /\ (forall k, k <> CACHE_KEY -> storage w' !! k = storage w !! k).
Proof.
  eexists. split; [reflexivity|].
  assert (Hc : cached_snapshot (with_storage w (delete CACHE_KEY (storage w))) = None).
  { unfold cached_snapshot, snapshot_fields. simpl. rewrite lookup_delete_eq. reflexivity. }
  split; [rewrite AppCache_get_eq; unfold cached_value; rewrite Hc; reflexivity|].
  split; [rewrite AppCache_isValid_eq, Hc; reflexivity|].
  intros k Hk. simpl. apply lookup_delete_ne. congruence.
Qed.

End CacheOperations.

(** ** OfflineQueue *)

Section QueueMore.

Context {host : Host}.

Lemma update_field_same k x fs : lookup_field k fs = Some x -> update_field k x fs = fs.
Proof.
  induction fs as [|[k' y] fs IH]; simpl; [discriminate|].
  destruct (String.eqb_spec k' k) as [->|Hne].
  - intros [= ->]. reflexivity.
  - intros H. rewrite (IH H). reflexivity.
Qed.

Lemma update_field_twice k x y fs :
  update_field k y (update_field k x fs) = update_field k y fs.
Proof.
  induction fs as [|[k' z] fs IH]; simpl.
  - rewrite String.eqb_refl. reflexivity.
  - destruct (String.eqb k' k) eqn:E; simpl.
    + rewrite String.eqb_refl. reflexivity.
    + rewrite E, IH. reflexivity.
Qed.

Lemma filter_all_survive (p : json -> bool) (l : list json) :
  (forall e, In e l -> p e = true) -> List.filter p l = l.
Proof.
  induction l as [|a l IH]; simpl; [reflexivity|]. intros H.
  rewrite (H a (or_introl eq_refl)), IH; [reflexivity|]. intros e He. apply H. right. exact He.
Qed.

Lemma addProduct_run w product fs np :
  stored_queue w = JObj fs ->
  lookup_field "new_products" fs = Some (JArr np) ->
  room_for_queue w ->
  OfflineQueue_addProduct product w =
    (Ret (JStr (temp_id (clock w)), update_field "_tempId" (JStr (temp_id (clock w))) product),
     with_storage w (<[QUEUE_KEY :=
       Json (JObj (update_field "new_products"
               (JArr (np ++ [JObj (update_field "_tempId" (JStr (temp_id (clock w))) product)]))
               fs))]> (storage w))).
Proof.
  intros Hq L Hroom. unfold OfflineQueue_addProduct.
  rewrite (bind_ret _ _ _ _ _ (OfflineQueue_get_eq w)).
  rewrite (bind_ret Date_now _ w (clock w) w eq_refl).
  rewrite Hq, (push_onto_object _ _ _ _ L).
  unfold bind at 1. unfold mbind, M_bind, lift.
  rewrite (OfflineQueue_set_eq _ _ Hroom). reflexivity.
Qed.

Lemma enqueue_product_appends (w : world) (product : object) :
  queue_ok w -> room_for_queue w ->
  exists w' np,
    OfflineQueue_addProduct product w =
      (Ret (JStr (temp_id (clock w)), update_field "_tempId" (JStr (temp_id (clock w))) product), w')
    /\ array_of "new_products" (stored_queue w) = Some np
    /\ array_of "new_products" (stored_queue w') =
         Some (np ++ [JObj (update_field "_tempId" (JStr (temp_id (clock w))) product)])
    /\ array_of "new_entries" (stored_queue w') = array_of "new_entries" (stored_queue w)
    /\ array_of "deleted_entries" (stored_queue w') = array_of "deleted_entries" (stored_queue w)
    /\ array_of "deleted_products" (stored_queue w') = array_of "deleted_products" (stored_queue w)
    /\ clock w' = clock w /\ queue_ok w' /\ room_for_queue w'.
Proof.
  intros Hok Hroom.
  destruct (valid_queue_inv _ (queue_ok_valid _ Hok))
    as (fs & ne & de & np & dp & Hq & L1 & L2 & L3 & L4 & H1 & H2).
  eexists. exists np.
  split; [apply (addProduct_run w product fs np Hq L3 Hroom)|].
  rewrite stored_queue_written, Hq.
  split; [unfold array_of; rewrite L3; reflexivity|].
  split; [apply array_of_update_eq|].
  do 3 (split; [apply array_of_update_ne; discriminate|]).
  split; [reflexivity|].
  split; [|apply room_for_queue_written, Hroom].
  apply queue_ok_written.
  apply (valid_queue_intro _ ne de
           (np ++ [JObj (update_field "_tempId" (JStr (temp_id (clock w))) product)]) dp);
    try assumption;
    try (rewrite lookup_update_field_ne by discriminate; assumption).
  - apply lookup_update_field_eq.
  - rewrite forallb_app, H2. reflexivity.
Qed.

(** X5.  [OfflineQueue.set] and [OfflineQueue.get] round trip: what a
    write that the storage takes puts down is what the next read returns;
    a write the storage refuses throws the quota error and changes
    nothing. *)
Theorem OfflineQueue_set_then_get (w : world) (queue : json) :
  (accepts w QUEUE_KEY (Json queue) = true ->
   exists w', OfflineQueue_set queue w = (Ret tt, w')
              /\ OfflineQueue_get w' = (Ret queue, w'))
  /\ (accepts w QUEUE_KEY (Json queue) = false ->
      OfflineQueue_set queue w = (Throw QuotaExceededError, w)).
Proof.
  unfold OfflineQueue_set, localStorage_setItem, JSON_stringify. split; intros ->.
  - eexists. split; [reflexivity|].
    rewrite OfflineQueue_get_eq, stored_queue_written. reflexivity.
  - reflexivity.
Qed.

(** X6.  [OfflineQueue.addProduct] stamps the product with the temp id of
    the current millisecond, appends it to [new_products] and leaves the
    three other lists as they were.  The temp id is the one an entry
    enqueued in the same millisecond gets: ids are not told apart by
    kind. *)
Theorem addProduct_appends_to_new_products (w : world) (product entry : object) :
  queue_ok w -> room_for_queue w ->
  exists t product' w' np,
    OfflineQueue_addProduct product w = (Ret (JStr t, product'), w')
    /\ startsWith t "temp_" = true
    /\ product' = update_field "_tempId" (JStr t) product
    /\ array_of "new_products" (stored_queue w) = Some np
    /\ array_of "new_products" (stored_queue w') = Some (np ++ [JObj product'])
    /\ array_of "new_entries" (stored_queue w') = array_of "new_entries" (stored_queue w)
    /\ array_of "deleted_entries" (stored_queue w') = array_of "deleted_entries" (stored_queue w)
    /\ array_of "deleted_products" (stored_queue w') = array_of "deleted_products" (stored_queue w)
    /\ exists entry' w'', OfflineQueue_addEntry entry w' = (Ret (JStr t, entry'), w'').
Proof.
  intros Hok Hroom.
  destruct (enqueue_product_appends w product Hok Hroom)
    as (w' & np & Hrun & Hnp & Hnp' & Hne & Hde & Hdp & Hclock & Hok' & Hroom').
  destruct (enqueue_appends w' entry Hok' Hroom') as (w'' & ne & Hadd & _).
  rewrite Hclock in Hadd.
  exists (temp_id (clock w)), (update_field "_tempId" (JStr (temp_id (clock w))) product), w', np.
  split; [exact Hrun|]. split; [apply temp_id_startsWith|]. split; [reflexivity|].
  do 5 (split; [assumption|]). eauto.
Qed.

(** X7.  After [OfflineQueue.clear] the queue reads as empty and
    [hasChanges] is false, whatever the cell held before, also a value of
    another shape; clearing twice is clearing once. *)
Theorem OfflineQueue_clear_empties (w : world) :
  exists w',
    OfflineQueue_clear w = (Ret tt, w')
    /\ OfflineQueue_get w' = (Ret empty_queue, w')
    /\ OfflineQueue_hasChanges w' = (Ret false, w')
    /\ storage w' !! CACHE_KEY = storage w !! CACHE_KEY
    /\ storage (snd (OfflineQueue_clear w')) = storage w'.
Proof.
  eexists. split; [reflexivity|].
  assert (Hq : stored_queue (with_storage w (delete QUEUE_KEY (storage w))) = empty_queue).
  { unfold stored_queue. simpl. rewrite lookup_delete_eq. reflexivity. }
  split; [rewrite OfflineQueue_get_eq, Hq; reflexivity|].
  split; [rewrite hasChanges_run; rewrite Hq; reflexivity|].
  split; [simpl; apply lookup_delete_ne; discriminate|].
  simpl. apply delete_id. apply lookup_delete_eq.
Qed.

(** X8.  On a well-formed queue [hasChanges] is true exactly when one of
    the four lists has an item. *)
Theorem hasChanges_iff_pending (w : world) :
  queue_ok w ->
  exists b,
    OfflineQueue_hasChanges w = (Ret b, w)
    /\ (b = true <-> pending (stored_queue w) <> 0%nat).
Proof.
  intros Hok. eexists. split; [apply hasChanges_run, queue_ok_valid, Hok|].
  destruct (Nat.eqb_spec (pending (stored_queue w)) 0) as [->|Hne]; simpl.
  - split; [discriminate|]. intros H. contradiction.
  - split; auto.
Qed.

(** X9.  [deleteEntry] with a temp id that no queued entry carries
    changes nothing: the stored queue is the one before. *)
Theorem dequeue_unknown_temp_id_is_noop (w : world) (t : string) :
  queue_ok w -> room_for_queue w -> startsWith t "temp_" = true ->
  (forall e ne, array_of "new_entries" (stored_queue w) = Some ne -> In e ne ->
                tempId_of e <> Some (JStr t)) ->
  exists w',
    OfflineQueue_deleteEntry (JStr t) w = (Ret tt, w')
    /\ stored_queue w' = stored_queue w.
Proof.
  intros Hok Hroom Hid Hnone.
  destruct (valid_queue_inv _ (queue_ok_valid _ Hok))
    as (fs & ne & de & np & dp & Hq & L1 & L2 & L3 & L4 & H1 & H2).
  eexists. split; [apply (deleteEntry_temp_run w (JStr t) fs ne Hq L1 H1 Hroom Hid)|].
  rewrite stored_queue_written, Hq. f_equal.
  rewrite filter_all_survive.
  - apply update_field_same, L1.
  - intros e He. apply survives_spec. apply (Hnone e ne); [|exact He].
    rewrite Hq. unfold array_of. rewrite L1. reflexivity.
Qed.

(** X10.  Deletions of real ids are queued as they come: deleting the
    same id twice leaves it twice in [deleted_entries]. *)
Theorem dequeue_real_id_twice_queues_twice (w : world) (entryId : json) :
  queue_ok w -> room_for_queue w ->
  startsWith (js_toString entryId) "temp_" = false ->
  exists w1 w2 de,
    OfflineQueue_deleteEntry entryId w = (Ret tt, w1)
    /\ OfflineQueue_deleteEntry entryId w1 = (Ret tt, w2)
    /\ array_of "deleted_entries" (stored_queue w) = Some de
    /\ array_of "deleted_entries" (stored_queue w2) = Some (de ++ [entryId; entryId]).
Proof.
  intros Hok Hroom Hid.
  destruct (dequeue_real_appends w entryId Hok Hroom Hid)
    as (w1 & de & Hrun1 & Hde & Hde1 & _ & _ & _ & Hok1).
  assert (Hroom1 : room_for_queue w1).
  { intros t. 
    destruct (valid_queue_inv _ (queue_ok_valid _ Hok)) as (fs & ne & de0 & np & dp & Hq & _ & L2 & _).
    rewrite (deleteEntry_real_run w entryId fs de0 Hq L2 Hroom Hid) in Hrun1.
    injection Hrun1 as <-. apply Hroom. }
  destruct (dequeue_real_appends w1 entryId Hok1 Hroom1 Hid)
    as (w2 & de1 & Hrun2 & Hde1' & Hde2 & _).
  rewrite Hde1 in Hde1'. injection Hde1' as <-.
  exists w1, w2, de. split; [exact Hrun1|]. split; [exact Hrun2|]. split; [exact Hde|].
  rewrite Hde2, <- List.app_assoc. reflexivity.
Qed.

(** X11.  Enqueueing an entry and dequeueing it by the id returned brings
    the stored queue back to what it was, provided no entry already queued
    carries the temp id of this millisecond. *)
Theorem enqueue_dequeue_restores_queue (w : world) (entry : object) :
  queue_ok w -> room_for_queue w ->
  (forall e ne, array_of "new_entries" (stored_queue w) = Some ne -> In e ne ->
                tempId_of e <> Some (JStr (temp_id (clock w)))) ->
  exists t entry' w1 w2,
    OfflineQueue_addEntry entry w = (Ret (JStr t, entry'), w1)
    /\ OfflineQueue_deleteEntry (JStr t) w1 = (Ret tt, w2)
    /\ stored_queue w2 = stored_queue w.
Proof.
  intros Hok Hroom Hnone.
  destruct (valid_queue_inv _ (queue_ok_valid _ Hok))
    as (fs & ne & de & np & dp & Hq & L1 & L2 & L3 & L4 & H1 & H2).
  set (t := temp_id (clock w)) in *.
  set (entry' := update_field "_tempId" (JStr t) entry).
  set (fs1 := update_field "new_entries" (JArr (ne ++ [JObj entry'])) fs).
  set (w1 := with_storage w (<[QUEUE_KEY := Json (JObj fs1)]> (storage w))).
  assert (Hadd : OfflineQueue_addEntry entry w = (Ret (JStr t, entry'), w1))
    by apply (addEntry_run w entry fs ne Hq L1 Hroom).
  assert (Hq1 : stored_queue w1 = JObj fs1) by apply stored_queue_written.
  assert (L1' : lookup_field "new_entries" fs1 = Some (JArr (ne ++ [JObj entry'])))
    by apply lookup_update_field_eq.
  assert (H1' : forallb is_object (ne ++ [JObj entry']) = true)
    by (rewrite forallb_app, H1; reflexivity).
  exists t, entry', w1. eexists.
  split; [exact Hadd|].
  split.
  { apply (deleteEntry_temp_run w1 (JStr t) fs1 _ Hq1 L1' H1'
             (room_for_queue_written _ _ Hroom) (temp_id_startsWith _)). }
  rewrite stored_queue_written, Hq. f_equal.
  rewrite List.filter_app. simpl.
  unfold entry' at 1. rewrite survives_stamped, List.app_nil_r.
  rewrite filter_all_survive.
  - unfold fs1. rewrite update_field_twice. apply update_field_same, L1.
  - intros e He. apply survives_spec. apply (Hnone e ne); [|exact He].
    rewrite Hq. unfold array_of. rewrite L1. reflexivity.
Qed.

End QueueMore.

(** ** API *)

Section ApiMore.

Context {host : Host}.

(** X12.  With nothing pending [pushChanges] returns true at once: no
    request is made and the world is as it was. *)
Theorem pushChanges_nothing_to_push (w : world) :
  queue_ok w -> pending (stored_queue w) = 0%nat ->
  API_pushChanges w = (Ret true, w).
Proof.
  intros Hok Hnone. unfold API_pushChanges.
  rewrite (bind_ret _ _ _ _ _ (hasChanges_run w (queue_ok_valid _ Hok))).
  rewrite Hnone. reflexivity.
Qed.

(** X13.  The test for changes of [pushChanges] is made outside its
    [try]: when the queue cell holds JSON that is [null], or an object
    without [new_entries], [pushChanges] throws a [TypeError], and no
    request is made. *)
Theorem pushChanges_throws_on_misshapen_queue (w : world) (q : json) :
  storage w !! QUEUE_KEY = Some (Json q) ->
  q = JNull \/ (exists fs, q = JObj fs /\ lookup_field "new_entries" fs = None) ->
  API_pushChanges w = (Throw TypeError, w).
Proof.
  intros Hcell Hshape.
  assert (Hq : stored_queue w = q) by (unfold stored_queue; rewrite Hcell; reflexivity).
  assert (Hthrow : OfflineQueue_hasChanges w = (Throw TypeError, w)).
  { unfold OfflineQueue_hasChanges.
    rewrite (bind_ret _ _ _ _ _ (OfflineQueue_get_eq w)). rewrite Hq.
    destruct Hshape as [->|(fs & -> & L)]; unfold lift, has_items; simpl.
    - reflexivity.
    - rewrite L. reflexivity. }
  unfold API_pushChanges. apply (bind_throw _ _ _ _ _ Hthrow).
Qed.

(** X14.  When the gateway delivers the created entry, [addEntry] returns
    it: the one request is logged, the input is not stamped and the
    storage is not touched. *)
Theorem addEntry_online_returns_created (w : world) (entry : object) (e : jsval) :
  created w entry = Some e ->
  API_addEntry entry w = (Ret (e, entry), with_sent w (sent w ++ [create_request entry])).
Proof.
  unfold created. fold (create_request entry). intros Hc.
  destruct (remote w (create_request entry)) as [[status payload]|] eqn:Hr; [|discriminate].
  destruct status; [|discriminate]. destruct payload as [| |result]; try discriminate.
  destruct (get_prop (Some result) "entry") as [v|] eqn:Hv; [|discriminate].
  injection Hc as ->.
  unfold API_addEntry. apply try_ret.
  fold (create_request entry).
  rewrite (bind_ret _ _ _ _ _ (fetch_reply _ _ _ Hr)).
  cbn [ok]. unfold response_json. cbn [body JSON_parse].
  unfold bind, mbind, M_bind, mret, M_ret, lift. rewrite Hv. reflexivity.
Qed.

Lemma product_fails_throws (w : world) (product : object) :
  created_product w product = None ->
  exists e,
    (let* response := fetch (http_post "/api/add_product" (JSON_stringify (JObj product))) in
     if ok response then
       let* result := response_json response in
       let* created := lift (get_prop (Some result) "product") in
       mret (created, product)
     else throw (Error (Some (JStr "Add product failed")))) w
    = (Throw e, with_sent w (sent w ++ [product_request product])).
Proof.
  unfold created_product. fold (product_request product).
  destruct (remote w (product_request product)) as [[status payload]|] eqn:Hr.
  - intros Hc. rewrite (bind_ret _ _ _ _ _ (fetch_reply _ _ _ Hr)). simpl.
    destruct status; [|eexists; reflexivity].
    destruct payload as [| |result]; try (eexists; reflexivity).
    destruct result; try discriminate Hc. eexists; reflexivity.
  - intros _. eexists. apply bind_throw, fetch_fails, Hr.
Qed.

(** X15.  When the gateway create fails, [addProduct] does what
    [addEntry] does, on [new_products]: the input is stamped in place with
    the temp id, the result is the stamped input with [id] and
    [_offline: true], and the stamped input is appended to
    [new_products]. *)
Theorem addProduct_offline_provisional (w : world) (product : object) :
  queue_ok w -> room_for_queue w -> created_product w product = None ->
  exists w' np,
    let t := temp_id (clock w) in
    let stamped_product := update_field "_tempId" (JStr t) product in
    let result :=
      update_field "_offline" (JBool true) (update_field "id" (JStr t) stamped_product) in
    API_addProduct product w = (Ret (Some (JObj result), stamped_product), w')
    /\ lookup_field "id" result = Some (JStr t)
    /\ lookup_field "_offline" result = Some (JBool true)
    /\ lookup_field "_tempId" result = Some (JStr t)
    /\ (forall k, k <> "id" -> k <> "_offline" -> k <> "_tempId" ->
        lookup_field k result = lookup_field k product)
    /\ array_of "new_products" (stored_queue w) = Some np
    /\ array_of "new_products" (stored_queue w') = Some (np ++ [JObj stamped_product])
    /\ array_of "new_entries" (stored_queue w') = array_of "new_entries" (stored_queue w).
Proof.
  intros Hok Hroom Hfail.
  destruct (product_fails_throws w product Hfail) as [e Hthrow].
  set (w1 := with_sent w (sent w ++ [product_request product])) in *.
  destruct (enqueue_product_appends w1 product (queue_ok_sent _ _ Hok)
              (room_for_queue_sent _ _ Hroom))
    as (w' & np & Hadd & Hnp & Hnp' & Hne & _).
  exists w', np. cbv zeta.
  split.
  { unfold API_addProduct. rewrite (try_throw _ _ _ _ _ Hthrow).
    rewrite (bind_ret _ _ _ _ _ Hadd). reflexivity. }
  split; [rewrite lookup_update_field_ne by discriminate; apply lookup_update_field_eq|].
  split; [apply lookup_update_field_eq|].
  split; [rewrite !lookup_update_field_ne by discriminate; apply lookup_update_field_eq|].
  split; [intros k H1 H2 H3; rewrite !lookup_update_field_ne by congruence; reflexivity|].
  split; [exact Hnp|]. split; [exact Hnp'|exact Hne].
Qed.

(** X16.  When the gateway delivers the created product, [addProduct]
    returns it and neither the input nor the storage is touched. *)
Theorem addProduct_online_returns_created (w : world) (product : object) (p : jsval) :
  created_product w product = Some p ->
  API_addProduct product w
  = (Ret (p, product), with_sent w (sent w ++ [product_request product])).
Proof.
  unfold created_product. fold (product_request product). intros Hc.
  destruct (remote w (product_request product)) as [[status payload]|] eqn:Hr; [|discriminate].
  destruct status; [|discriminate]. destruct payload as [| |result]; try discriminate.
  destruct (get_prop (Some result) "product") as [v|] eqn:Hv; [|discriminate].
  injection Hc as ->.
  unfold API_addProduct. apply try_ret.
  fold (product_request product).
  rewrite (bind_ret _ _ _ _ _ (fetch_reply _ _ _ Hr)).
  cbn [ok]. unfold response_json. cbn [body JSON_parse].
  unfold bind, mbind, M_bind, mret, M_ret, lift. rewrite Hv. reflexivity.
Qed.

(** What [pushChanges] does with a queue that has changes. *)
Lemma pushChanges_run (w : world) :
  queue_ok w -> pending (stored_queue w) <> 0%nat ->
  API_pushChanges w =
    (Ret (push_accepted w),
     if push_accepted w
     then with_storage (with_sent w (sent w ++ [push_request w])) (delete QUEUE_KEY (storage w))
     else with_sent w (sent w ++ [push_request w])).
Proof.
  intros Hok Hsome. unfold API_pushChanges.
  rewrite (bind_ret _ _ _ _ _ (hasChanges_run w (queue_ok_valid _ Hok))).
  destruct (Nat.eqb_spec (pending (stored_queue w)) 0) as [E|_]; [contradiction|]. simpl.
  unfold push_accepted.
  destruct (remote w (push_request w)) as [r|] eqn:Hr.
  - apply try_ret.
    rewrite (bind_ret _ _ _ _ _ (OfflineQueue_get_eq w)).
    rewrite (bind_ret _ _ _ _ _ (fetch_reply _ _ _ Hr)).
    destruct (ok r); reflexivity.
  - assert (Hrun : (let* queue := OfflineQueue_get in
                    let* response := fetch (http_post "/api/sync" (JSON_stringify queue)) in
                    if ok response then OfflineQueue_clear;; mret true else mret false) w
                   = (Throw TypeError, with_sent w (sent w ++ [push_request w]))).
    { rewrite (bind_ret _ _ _ _ _ (OfflineQueue_get_eq w)).
      apply bind_throw. apply fetch_fails. exact Hr. }
    rewrite (try_throw _ _ _ _ _ Hrun). reflexivity.
Qed.

(** X17.  Flush of an offline write: an entry added while the create
    fails is part of the next push, as the last of [new_entries] and
    stamped with its temp id; when the gateway takes that push, nothing is
    left pending. *)
Theorem offline_entry_is_pushed_then_cleared (w : world) (entry : object) :
  queue_ok w -> room_for_queue w -> created w entry = None ->
  exists r w1 w2 ne,
    API_addEntry entry w = (Ret r, w1)
    /\ array_of "new_entries" (stored_queue w) = Some ne
    /\ req_body (push_request w1) = Some (Json (stored_queue w1))
    /\ array_of "new_entries" (stored_queue w1)
       = Some (ne ++ [JObj (update_field "_tempId" (JStr (temp_id (clock w))) entry)])
    /\ API_pushChanges w1 = (Ret (push_accepted w1), w2)
    /\ sent w2 = sent w ++ [create_request entry; push_request w1]
    /\ (push_accepted w1 = true ->
        pending (stored_queue w2) = 0%nat /\ OfflineQueue_hasChanges w2 = (Ret false, w2)).
Proof.
  intros Hok Hroom Hfail.
  destruct (create_fails_throws w entry Hfail) as [e Hthrow].
  set (w0 := with_sent w (sent w ++ [create_request entry])) in *.
  destruct (valid_queue_inv _ (queue_ok_valid _ Hok))
    as (fs & ne & de & np & dp & Hq & L1 & L2 & L3 & L4 & H1 & H2).
  pose proof (addEntry_run w0 entry fs ne Hq L1 (room_for_queue_sent _ _ Hroom)) as Hadd.
  cbv zeta in Hadd. change (clock w0) with (clock w) in Hadd.
  set (entry' := update_field "_tempId" (JStr (temp_id (clock w))) entry) in *.
  set (w1 := with_storage w0 _) in Hadd.
  assert (Hq1 : stored_queue w1 = JObj (update_field "new_entries" (JArr (ne ++ [JObj entry'])) fs))
    by apply stored_queue_written.
  assert (Hne1 : array_of "new_entries" (stored_queue w1) = Some (ne ++ [JObj entry']))
    by (rewrite Hq1; apply array_of_update_eq).
  assert (Hok1 : queue_ok w1).
  { apply queue_ok_written.
    apply (valid_queue_intro _ (ne ++ [JObj entry']) de np dp); try assumption;
      try (rewrite lookup_update_field_ne by discriminate; assumption).
    - apply lookup_update_field_eq.
    - rewrite forallb_app, H1. reflexivity. }
  assert (Hsome : pending (stored_queue w1) <> 0%nat).
  { unfold pending. rewrite Hne1. simpl. rewrite length_app. simpl. lia. }
  eexists _, w1, _, ne.
  split.
  { unfold API_addEntry. rewrite (try_throw _ _ _ _ _ Hthrow).
    rewrite (bind_ret _ _ _ _ _ Hadd). reflexivity. }
  split; [rewrite Hq; unfold array_of; rewrite L1; reflexivity|].
  split; [reflexivity|]. split; [exact Hne1|].
  split; [apply (pushChanges_run w1 Hok1 Hsome)|].
  split.
  { destruct (push_accepted w1); simpl; rewrite <- List.app_assoc; reflexivity. }
  intros Hacc. rewrite Hacc.
  assert (Hq2 : stored_queue (with_storage (with_sent w1 (sent w1 ++ [push_request w1]))
                                (delete QUEUE_KEY (storage w1))) = empty_queue).
  { unfold stored_queue. simpl. rewrite lookup_delete_eq. reflexivity. }
  split; [rewrite Hq2; reflexivity|].
  rewrite hasChanges_run; rewrite Hq2; reflexivity.
Qed.

End ApiMore.

(** ** What the operations leave alone *)

Section Frame.

Context {host : Host}.

Variable k : string.
Variable v : option text.


Lemma frame_fetch req : keeps (cell_is k v) (fetch req) (fun _ => True).
Proof. intros w Hw. unfold fetch. destruct (remote w req); simpl; split; auto. Qed.

Lemma frame_getItem key : keeps (cell_is k v) (localStorage_getItem key) (fun _ => True).
Proof. intros w Hw. split; auto. Qed.

Lemma frame_Date_now : keeps (cell_is k v) Date_now (fun _ => True).
Proof. intros w Hw. split; auto. Qed.

Lemma frame_JSON_parse t : keeps (cell_is k v) (JSON_parse t) (fun _ => True).
Proof. intros w Hw. destruct t as [[| |x]|]; split; auto. Qed.

Lemma frame_response_json r : keeps (cell_is k v) (response_json r) (fun _ => True).
Proof. apply frame_JSON_parse. Qed.

Lemma frame_setItem key t : key <> k -> keeps (cell_is k v) (localStorage_setItem key t) (fun _ => True).
Proof.
  intros Hne w Hw. unfold localStorage_setItem.
  destruct (accepts w key t); simpl; split; auto.
  unfold cell_is. simpl. rewrite lookup_insert_ne by exact Hne. exact Hw.
Qed.

Lemma frame_removeItem key : key <> k -> keeps (cell_is k v) (localStorage_removeItem key) (fun _ => True).
Proof.
  intros Hne w Hw. split; [|auto]. unfold cell_is. simpl.
  rewrite lookup_delete_ne by exact Hne. exact Hw.
Qed.

Lemma frame_lift {A} (o : outcome A) : keeps (cell_is k v) (lift o) (fun _ => True).
Proof. apply keeps_lift. auto. Qed.

Lemma frame_ret {A} (a : A) : keeps (cell_is k v) (mret a) (fun _ => True).
Proof. apply keeps_ret. exact I. Qed.

(** Takes a computation apart along its sequencing, its [try] and its
    branches. *)
Ltac frame_step :=
  lazymatch goal with
  | |- keeps _ (mret _) _ => apply frame_ret
  | |- keeps _ (throw _) _ => apply keeps_throw
  | |- keeps _ (lift _) _ => apply frame_lift
  | |- keeps _ (fetch _) _ => apply frame_fetch
  | |- keeps _ (localStorage_getItem _) _ => apply frame_getItem
  | |- keeps _ Date_now _ => apply frame_Date_now
  | |- keeps _ (JSON_parse _) _ => apply frame_JSON_parse
  | |- keeps _ (response_json _) _ => apply frame_response_json
  | |- keeps _ (localStorage_setItem _ _) _ => apply frame_setItem; congruence
  | |- keeps _ (localStorage_removeItem _) _ => apply frame_removeItem; congruence
  | |- keeps _ (try_catch _ _) _ => apply keeps_try; [|intros ?]
  | |- keeps _ (bind _ _) _ => eapply (keeps_bind _ _ _ (fun _ => True)); [|intros ? _]
  | |- keeps _ (mbind _ _) _ => eapply (keeps_seq _ _ _ (fun _ => True))
  | |- keeps _ (if ?b then _ else _) _ => destruct b
  | |- keeps _ (match ?x with _ => _ end) _ => destruct x
  end.

Ltac frame := repeat frame_step.

Lemma frame_AppCache_get : keeps (cell_is k v) AppCache_get (fun _ => True).
Proof. unfold AppCache_get. frame. Qed.

Lemma frame_AppCache_set data : k <> CACHE_KEY -> keeps (cell_is k v) (AppCache_set data) (fun _ => True).
Proof. intros Hne. unfold AppCache_set. frame. Qed.

Lemma frame_OfflineQueue_get : keeps (cell_is k v) OfflineQueue_get (fun _ => True).
Proof. unfold OfflineQueue_get. frame. Qed.

Lemma frame_OfflineQueue_hasChanges : keeps (cell_is k v) OfflineQueue_hasChanges (fun _ => True).
Proof. unfold OfflineQueue_hasChanges. frame. apply frame_OfflineQueue_get. Qed.

Lemma frame_syncAll : k <> CACHE_KEY -> keeps (cell_is k v) API_syncAll (fun _ => True).
Proof.
  intros Hne. unfold API_syncAll. frame;
    try apply frame_AppCache_get; try (apply frame_AppCache_set; exact Hne); frame.
Qed.

Lemma frame_pushChanges : k <> QUEUE_KEY -> keeps (cell_is k v) API_pushChanges (fun _ => True).
Proof.
  intros Hne. unfold API_pushChanges, OfflineQueue_clear. frame;
    try apply frame_OfflineQueue_hasChanges; try apply frame_OfflineQueue_get; frame.
Qed.

Lemma frame_addEntry entry : k <> QUEUE_KEY -> keeps (cell_is k v) (API_addEntry entry) (fun _ => True).
Proof.
  intros Hne. unfold API_addEntry, OfflineQueue_addEntry, OfflineQueue_set. frame;
    try apply frame_OfflineQueue_get; frame.
Qed.

Lemma frame_addProduct product :
  k <> QUEUE_KEY -> keeps (cell_is k v) (API_addProduct product) (fun _ => True).
Proof.
  intros Hne. unfold API_addProduct, OfflineQueue_addProduct, OfflineQueue_set. frame;
    try apply frame_OfflineQueue_get; frame.
Qed.

Lemma frame_deleteEntry entryId :
  k <> QUEUE_KEY -> keeps (cell_is k v) (API_deleteEntry entryId) (fun _ => True).
Proof.
  intros Hne. unfold API_deleteEntry, OfflineQueue_deleteEntry, OfflineQueue_set. frame;
    try apply frame_OfflineQueue_get; frame.
Qed.

Lemma frame_searchProducts escape query :
  keeps (cell_is k v) (searchProducts escape query) (fun _ => True).
Proof. unfold searchProducts. frame. Qed.

Lemma frame_getProductNutrition productId weight :
  keeps (cell_is k v) (getProductNutrition productId weight) (fun _ => True).
Proof. unfold getProductNutrition. frame. Qed.

End Frame.

Section FrameTheorem.

Context {host : Host}.

(** X18.  The operations touch no key of the storage but their own.
    However it ends, [syncAll] leaves every key but the cache's as it was,
    and [pushChanges], [addEntry], [deleteEntry] and [addProduct] leave
    every key but the queue's: a pull never loses a pending change, and a
    queued write never disturbs the cached snapshot. *)
Theorem operations_touch_only_their_key (w : world) (k : string) :
  (k <> CACHE_KEY -> storage (snd (API_syncAll w)) !! k = storage w !! k)
  /\ (k <> QUEUE_KEY ->
      storage (snd (API_pushChanges w)) !! k = storage w !! k
      /\ (forall entry, storage (snd (API_addEntry entry w)) !! k = storage w !! k)
      /\ (forall entryId, storage (snd (API_deleteEntry entryId w)) !! k = storage w !! k)
      /\ (forall product, storage (snd (API_addProduct product w)) !! k = storage w !! k)).
Proof.
  split.
  - intros Hne. apply (frame_syncAll k (storage w !! k) Hne w eq_refl).
  - intros Hne. split; [apply (frame_pushChanges k (storage w !! k) Hne w eq_refl)|].
    split; [intros entry; apply (frame_addEntry k (storage w !! k) entry Hne w eq_refl)|].
    split; [intros entryId; apply (frame_deleteEntry k (storage w !! k) entryId Hne w eq_refl)|].
    intros product. apply (frame_addProduct k (storage w !! k) product Hne w eq_refl).
Qed.

End FrameTheorem.

(** ** The product lookups *)

Section Lookups.

Context {host : Host}.

(** X19.  [searchProducts] never throws and never touches the storage.
    When the platform escapes the query, it makes one request, with the
    escaped query, and its result is the JSON of the reply whatever the
    status, a non-2xx reply included, and the empty array when the request
    fails or the body is not JSON.  When the escape throws, as it does on
    a lone surrogate, no request is made and the result is the empty
    array. *)
Theorem searchProducts_result
  (encodeURIComponent : string -> outcome string) (query : json) (w : world) :
  match encodeURIComponent (js_toString query) with
  | Ret escaped =>
      searchProducts encodeURIComponent query w
      = (Ret (default (JArr []) (reply_json (remote w (search_request escaped)))),
         with_sent w (sent w ++ [search_request escaped]))
  | Throw _ => searchProducts encodeURIComponent query w = (Ret (JArr []), w)
  end.
Proof.
  unfold searchProducts, try_catch, bind, mbind, M_bind, lift.
  destruct (encodeURIComponent (js_toString query)) as [escaped|e]; [|reflexivity].
  fold (search_request escaped). unfold fetch.
  destruct (remote w (search_request escaped)) as [[status [| |v]]|]; reflexivity.
Qed.

(** X21.  [getProductNutrition] never throws and never touches the
    storage.  It asks for the weight given, 100 when none is given; its
    result is the JSON of the reply whatever the status, and [null] when
    the request fails or the body is not JSON. *)
Theorem getProductNutrition_result (productId : json) (weight : jsval) (w : world) :
  let req := nutrition_request productId (default (JNum 100) weight) in
  getProductNutrition productId weight w
  = (Ret (default JNull (reply_json (remote w req))), with_sent w (sent w ++ [req])).
Proof.
  cbv zeta. unfold getProductNutrition.
  fold (nutrition_request productId (default (JNum 100) weight)).
  unfold try_catch, bind, mbind, M_bind, fetch.
  destruct (remote w (nutrition_request productId (default (JNum 100) weight)))
    as [[status [| |v]]|]; reflexivity.
Qed.

End Lookups.

(** ** The start of the page *)

Section StartupFacts.

Context {host : Host}.

Lemma fetch_issue_settle {A} req (k : response -> M A) w :
  (let* response := fetch req in k response) w
  = (let* response := settle (remote w req) in k response) (with_sent w (sent w ++ [req])).
Proof.
  unfold bind, mbind, M_bind, fetch, settle.
  destruct (remote w req); reflexivity.
Qed.

(** The operations are their two halves put together: running
    [syncAll] or [pushChanges] in one piece is issuing the request and
    resuming with the reply at once. *)
Theorem operations_are_their_halves (w : world) :
  API_syncAll w = (let* reply := issue (http_get "/api/sync") in syncAll_resume reply) w
  /\ API_pushChanges w = (let* state := pushChanges_begin in pushChanges_end state) w.
Proof.
  split.
  - unfold API_syncAll, syncAll_resume.
    rewrite (bind_ret (issue (http_get "/api/sync")) _ w _ _ eq_refl).
    unfold try_catch. rewrite fetch_issue_settle. reflexivity.
  - destruct (OfflineQueue_hasChanges w) as [[changes|e] w1] eqn:Hh.
    + destruct changes.
      * set (req := http_post "/api/sync" (JSON_stringify (stored_queue w1))).
        assert (Hbegin : pushChanges_begin w
                         = (Ret (PushWaiting (remote w1 req)), with_sent w1 (sent w1 ++ [req]))).
        { unfold pushChanges_begin. apply try_ret.
          rewrite (bind_ret _ _ _ _ _ Hh). cbn [negb]. apply try_ret.
          rewrite (bind_ret _ _ _ _ _ (OfflineQueue_get_eq w1)).
          rewrite (bind_ret (issue req) _ w1 _ _ eq_refl). reflexivity. }
        rewrite (bind_ret _ _ _ _ _ Hbegin).
        unfold API_pushChanges. rewrite (bind_ret _ _ _ _ _ Hh). cbn [negb].
        unfold try_catch at 1.
        rewrite (bind_ret _ _ _ _ _ (OfflineQueue_get_eq w1)).
        fold req. rewrite fetch_issue_settle. reflexivity.
      * assert (Hbegin : pushChanges_begin w = (Ret (PushDone true), w1)).
        { unfold pushChanges_begin. apply try_ret.
          rewrite (bind_ret _ _ _ _ _ Hh). reflexivity. }
        rewrite (bind_ret _ _ _ _ _ Hbegin).
        unfold API_pushChanges. rewrite (bind_ret _ _ _ _ _ Hh). reflexivity.
    + assert (Hbegin : pushChanges_begin w = (Ret (PushRejected e), w1)).
      { unfold pushChanges_begin.
        rewrite (try_throw _ _ w e w1); [reflexivity|]. apply (bind_throw _ _ _ _ _ Hh). }
      rewrite (bind_ret _ _ _ _ _ Hbegin).
      unfold API_pushChanges. apply (bind_throw _ _ _ _ _ Hh).
Qed.

Lemma pushChanges_begin_waits (w : world) :
  queue_ok w -> pending (stored_queue w) <> 0%nat ->
  pushChanges_begin w
  = (Ret (PushWaiting (remote w (push_request w))), with_sent w (sent w ++ [push_request w])).
Proof.
  intros Hok Hsome. unfold pushChanges_begin. apply try_ret.
  rewrite (bind_ret _ _ _ _ _ (hasChanges_run w (queue_ok_valid _ Hok))).
  destruct (Nat.eqb_spec (pending (stored_queue w)) 0) as [E|_]; [contradiction|].
  cbn [negb]. apply try_ret.
  rewrite (bind_ret _ _ _ _ _ (OfflineQueue_get_eq w)).
  rewrite (bind_ret (issue _) _ w _ _ eq_refl). reflexivity.
Qed.



Lemma pushChanges_resume_eq (reply : option response) (w : world) :
  pushChanges_resume reply w
  = (Ret (accepted reply),
     if accepted reply then with_storage w (delete QUEUE_KEY (storage w)) else w).
Proof.
  unfold pushChanges_resume, try_catch, bind, mbind, M_bind, settle, accepted.
  destruct reply as [[[] b]|]; reflexivity.
Qed.

Lemma syncAll_resume_fallback (reply : option response) (w : world) :
  delivered reply = None ->
  syncAll_resume reply w
  = (Ret (match cached_snapshot w with
          | Some fs => lookup_field "data" fs
          | None => Some JNull
          end), w).
Proof.
  intros Hd.
  assert (Hthrow : exists e,
    (let* response := settle reply in
     if negb (ok response) then throw (Error (Some (JStr "Sync failed"))) else
     let* result := response_json response in
     let* success := lift (get_prop (Some result) "success") in
     if truthy success then
       let* result := AppCache_set result in
       lift (get_prop (Some result) "data")
     else
       let* error := lift (get_prop (Some result) "error") in
       throw (Error (if truthy error then error else Some (JStr "Sync failed")))) w
    = (Throw e, w)).
  { destruct reply as [[status payload]|]; [|eexists; reflexivity].
    rewrite (bind_ret (settle (Some {| ok := status; body := payload |})) _ w
               {| ok := status; body := payload |} w eq_refl).
    destruct status; [|eexists; reflexivity].
    destruct payload as [| |result]; try (eexists; reflexivity).
    destruct result as [| | | | |fs]; try (eexists; reflexivity).
    simpl in Hd. destruct (truthy (lookup_field "success" fs)) eqn:Ht; [discriminate|].
    eexists. unfold response_json, JSON_parse, bind, mbind, M_bind, mret, M_ret, lift.
    cbn -[truthy]. rewrite Ht. reflexivity. }
  destruct Hthrow as [e Hthrow].
  unfold syncAll_resume. rewrite (try_throw _ _ _ _ _ Hthrow).
  rewrite (bind_ret _ _ _ _ _ (AppCache_get_eq w)). unfold cached_value.
  destruct (cached_snapshot w); reflexivity.
Qed.

Lemma syncAll_resume_delivered (reply : option response) (w : world) (fs : object) :
  delivered reply = Some fs ->
  syncAll_resume reply w
  = (Ret (lookup_field "data" fs),
     if accepts w CACHE_KEY (Json (stamped (clock w) (JObj fs)))
     then with_storage w (<[CACHE_KEY := Json (stamped (clock w) (JObj fs))]> (storage w))
     else w).
Proof.
  intros Hd. destruct reply as [[status payload]|]; [|discriminate].
  destruct status; [|discriminate]. destruct payload as [| |result]; try discriminate.
  destruct result as [| | | | |fs']; try discriminate. simpl in Hd.
  destruct (truthy (lookup_field "success" fs')) eqn:Ht; [|discriminate].
  injection Hd as ->.
  unfold syncAll_resume. apply try_ret.
  rewrite (bind_ret (settle (Some {| ok := true; body := Json (JObj fs) |})) _ w
             {| ok := true; body := Json (JObj fs) |} w eq_refl). cbn [ok negb].
  unfold response_json. cbn [body JSON_parse].
  rewrite (bind_ret (mret (JObj fs)) _ w _ w eq_refl).
  rewrite (bind_ret (lift (get_prop (Some (JObj fs)) "success")) _ w _ w eq_refl).
  rewrite Ht.
  rewrite (bind_ret _ _ _ _ _ (AppCache_set_object w fs)).
  unfold lift. f_equal. simpl. rewrite !lookup_update_field_ne by discriminate. reflexivity.
Qed.

(** X25.  The two replies may come in either order: resuming the pull
    and then the push, or the push and then the pull, gives the same two
    results and the same world.  The pull writes the cache cell only and
    the push clears the queue cell only. *)
Theorem replies_commute (pull push : option response) (w : world) :
  let s := syncAll_resume pull w in
  let p := pushChanges_resume push (snd s) in
  let p' := pushChanges_resume push w in
  let s' := syncAll_resume pull (snd p') in
  fst s = fst s' /\ fst p = fst p' /\ snd p = snd s'.
Proof.
  cbv zeta. rewrite !pushChanges_resume_eq. cbn [fst snd].
  destruct (delivered pull) as [fs|] eqn:Hd.
  - rewrite !(syncAll_resume_delivered pull _ fs Hd). cbn [fst snd].
    split; [reflexivity|]. split; [reflexivity|].
    destruct (accepted push); cbn [accepts clock with_storage storage];
      destruct (accepts w CACHE_KEY _); try reflexivity.
    unfold with_storage. cbn [storage accepts clock remote sent]. f_equal.
    apply delete_insert_ne. discriminate.
  - rewrite !(syncAll_resume_fallback pull _ Hd). cbn [fst snd].
    split; [|split; reflexivity].
    destruct (accepted push); [|reflexivity].
    assert (Hc : cached_snapshot (with_storage w (delete QUEUE_KEY (storage w)))
                 = cached_snapshot w).
    { unfold cached_snapshot, snapshot_fields. simpl.
      rewrite lookup_delete_ne by discriminate. reflexivity. }
    rewrite Hc. reflexivity.
Qed.

End StartupFacts.

Section InFlight.

Context {host : Host}.

(** X26.  A push in flight does not see what is queued after it went
    out, and its success clears the queue all the same: an entry enqueued
    between the request and its 2xx reply is in no request and is no
    longer pending afterwards. *)
Theorem entry_queued_during_push_is_dropped (w : world) (entry : object) :
  queue_ok w -> room_for_queue w -> pending (stored_queue w) <> 0%nat ->
  push_accepted w = true ->
  exists reply w1 t entry' w2 w3 ne,
    pushChanges_begin w = (Ret (PushWaiting reply), w1)
    /\ sent w1 = sent w ++ [push_request w]
    /\ array_of "new_entries" (stored_queue w) = Some ne
    /\ req_body (push_request w) = Some (Json (stored_queue w))
    /\ OfflineQueue_addEntry entry w1 = (Ret (JStr t, entry'), w2)
    /\ array_of "new_entries" (stored_queue w2) = Some (ne ++ [JObj entry'])
    /\ pushChanges_resume reply w2 = (Ret true, w3)
    /\ sent w3 = sent w ++ [push_request w]
    /\ OfflineQueue_get w3 = (Ret empty_queue, w3).
Proof.
  intros Hok Hroom Hsome Hacc.
  pose proof (pushChanges_begin_waits w Hok Hsome) as Hbegin.
  set (w1 := with_sent w (sent w ++ [push_request w])) in *.
  destruct (enqueue_appends w1 entry (queue_ok_sent _ _ Hok) (room_for_queue_sent _ _ Hroom))
    as (w2 & ne & Hadd & Hne & Hne2 & _).
  assert (Hsent2 : sent w2 = sent w1).
  { destruct (valid_queue_inv _ (queue_ok_valid _ Hok)) as (fs & ne0 & de & np & dp & Hq & L1 & _).
    pose proof (addEntry_run w1 entry fs ne0 Hq L1 (room_for_queue_sent _ _ Hroom)) as Hrun.
    cbv zeta in Hrun. rewrite Hrun in Hadd. injection Hadd as <-. reflexivity. }
  exists (remote w (push_request w)), w1. eexists _, _, w2, _, ne.
  split; [exact Hbegin|]. split; [reflexivity|]. split; [exact Hne|]. split; [reflexivity|].
  split; [exact Hadd|]. split; [exact Hne2|].
  assert (Hyes : accepted (remote w (push_request w)) = true) by exact Hacc.
  split; [rewrite pushChanges_resume_eq, Hyes; reflexivity|].
  split; [exact Hsent2|].
  rewrite OfflineQueue_get_eq. unfold stored_queue. simpl.
  rewrite lookup_delete_eq. reflexivity.
Qed.

End InFlight.

(** ** Witnesses of the further properties *)

Lemma flaky_world_ok : queue_ok flaky_world.
Proof. exact busy_world_ok. Defined.

Lemma flaky_world_room : room_for_queue flaky_world.
Proof. intros t. reflexivity. Defined.

Lemma busy_ids_are_not (t : string) :
  String.eqb t "temp_123" = false -> String.eqb t "temp_456" = false ->
  forall e ne, array_of "new_entries" (stored_queue busy_world) = Some ne -> In e ne ->
               tempId_of e <> Some (JStr t).
Proof.
  intros H1 H2 e ne Hne. rewrite busy_new_entries in Hne. injection Hne as <-.
  intros [<-|[<-|[<-|[]]]] [= <-]; discriminate.
Defined.

(** Caching a result with a version and a date of its own. *)
Lemma AppCache_set_then_get_witness :
  room_for_cache online_world
  /\ exists w' snapshot,
       AppCache_set (JObj [("version", JStr "0.1"); ("data", day_data)]) online_world
       = (Ret (JObj snapshot), w')
       /\ AppCache_get w' = (Ret (JObj snapshot), w')
       /\ lookup_field "version" snapshot = Some (JStr "1.0")
       /\ lookup_field "data" snapshot = Some day_data.
Proof.
  assert (H1 : room_for_cache online_world) by (intros t; reflexivity).
  split; [exact H1|].
  destruct (AppCache_set_then_get online_world [("version", JStr "0.1"); ("data", day_data)] H1)
    as (w' & snapshot & Hset & Hget & Hv & _ & Hother).
  exists w', snapshot. split; [exact Hset|]. split; [exact Hget|]. split; [exact Hv|].
  rewrite (Hother "data"); [reflexivity|discriminate|discriminate].
Defined.

(** A snapshot written on 2024-02-29 at 12:34:56.789, read one
    millisecond before and at the end of its five minutes. *)
Lemma AppCache_valid_for_five_minutes_witness :
  room_for_cache online_world
  /\ toISOString (clock online_world) <> ""
  /\ Date_parse (toISOString (clock online_world)) = Some (clock online_world)
  /\ (exists w', AppCache_isValid (at_time (cached_at + 299999) w')
                 = (Ret true, at_time (cached_at + 299999) w'))
  /\ (exists w', AppCache_isValid (at_time (cached_at + 300000) w')
                 = (Ret false, at_time (cached_at + 300000) w')).
Proof.
  assert (H1 : room_for_cache online_world) by (intros t; reflexivity).
  assert (H2 : toISOString (clock online_world) <> "") by (vm_compute; discriminate).
  assert (H3 : Date_parse (toISOString (clock online_world)) = Some (clock online_world))
    by (vm_compute; reflexivity).
  split; [exact H1|]. split; [exact H2|]. split; [exact H3|]. split.
  - destruct (AppCache_valid_for_five_minutes online_world [("data", day_data)]
                (cached_at + 299999) H1 H2 H3) as (w' & _ & Hv).
    exists w'. exact Hv.
  - destruct (AppCache_valid_for_five_minutes online_world [("data", day_data)]
                (cached_at + 300000) H1 H2 H3) as (w' & _ & Hv).
    exists w'. exact Hv.
Defined.

(** A pear queued as a new product beside the three entries. *)
Lemma addProduct_appends_to_new_products_witness :
  queue_ok busy_world /\ room_for_queue busy_world
  /\ exists product' w',
       OfflineQueue_addProduct pear busy_world = (Ret (JStr "temp_1700000000000", product'), w')
       /\ array_of "new_products" (stored_queue w') = Some [JObj product']
       /\ array_of "new_entries" (stored_queue w')
          = Some [queued "temp_123" apple; queued "temp_456" pear; queued "temp_123" pear].
Proof.
  assert (H1 : queue_ok busy_world) by exact busy_world_ok.
  assert (H2 : room_for_queue busy_world) by apply offline_room.
  split; [exact H1|]. split; [exact H2|].
  destruct (addProduct_appends_to_new_products busy_world pear apple H1 H2)
    as (t & product' & w' & np & Hrun & _ & Hp & Hnp & Hnp' & Hne & _).
  assert (Ht : t = "temp_1700000000000").
  { assert (E : fst (OfflineQueue_addProduct pear busy_world)
                = Ret (JStr "temp_1700000000000",
                       update_field "_tempId" (JStr "temp_1700000000000") pear))
      by (vm_compute; reflexivity).
    rewrite Hrun in E. simpl in E. injection E as E _. exact E. }
  assert (Enp : array_of "new_products" (stored_queue busy_world) = Some [])
    by (vm_compute; reflexivity).
  rewrite Enp in Hnp. injection Hnp as <-.
  rewrite busy_new_entries in Hne. subst t.
  exists product', w'. split; [exact Hrun|]. split; [exact Hnp'|exact Hne].
Defined.

(** The busy queue has changes. *)
Lemma hasChanges_iff_pending_witness :
  queue_ok busy_world /\ OfflineQueue_hasChanges busy_world = (Ret true, busy_world).
Proof.
  assert (H1 : queue_ok busy_world) by exact busy_world_ok.
  split; [exact H1|].
  destruct (hasChanges_iff_pending busy_world H1) as (b & Hrun & Hiff).
  assert (Hb : b = true) by (apply Hiff; vm_compute; discriminate).
  rewrite Hb in Hrun. exact Hrun.
Defined.

(** Dequeueing a temp id nobody carries. *)
Lemma dequeue_unknown_temp_id_is_noop_witness :
  queue_ok busy_world /\ room_for_queue busy_world /\ startsWith "temp_999" "temp_" = true
  /\ (forall e ne, array_of "new_entries" (stored_queue busy_world) = Some ne -> In e ne ->
                   tempId_of e <> Some (JStr "temp_999"))
  /\ exists w', OfflineQueue_deleteEntry (JStr "temp_999") busy_world = (Ret tt, w')
                /\ stored_queue w' = stored_queue busy_world.
Proof.
  assert (H1 : queue_ok busy_world) by exact busy_world_ok.
  assert (H2 : room_for_queue busy_world) by apply offline_room.
  assert (H3 : startsWith "temp_999" "temp_" = true) by (vm_compute; reflexivity).
  assert (H4 := busy_ids_are_not "temp_999" eq_refl eq_refl).
  split; [exact H1|]. split; [exact H2|]. split; [exact H3|]. split; [exact H4|].
  exact (dequeue_unknown_temp_id_is_noop busy_world "temp_999" H1 H2 H3 H4).
Defined.

(** Deleting the entry number 17 twice. *)
Lemma dequeue_real_id_twice_queues_twice_witness :
  queue_ok busy_world /\ room_for_queue busy_world
  /\ startsWith (js_toString (JNum 17)) "temp_" = false
  /\ exists w1 w2,
       OfflineQueue_deleteEntry (JNum 17) busy_world = (Ret tt, w1)
       /\ OfflineQueue_deleteEntry (JNum 17) w1 = (Ret tt, w2)
       /\ array_of "deleted_entries" (stored_queue w2) = Some [JNum 7; JNum 17; JNum 17].
Proof.
  assert (H1 : queue_ok busy_world) by exact busy_world_ok.
  assert (H2 : room_for_queue busy_world) by apply offline_room.
  assert (H3 : startsWith (js_toString (JNum 17)) "temp_" = false) by (vm_compute; reflexivity).
  split; [exact H1|]. split; [exact H2|]. split; [exact H3|].
  destruct (dequeue_real_id_twice_queues_twice busy_world (JNum 17) H1 H2 H3)
    as (w1 & w2 & de & Hrun1 & Hrun2 & Hde & Hde2).
  rewrite busy_deleted_entries in Hde. injection Hde as <-.
  exists w1, w2. split; [exact Hrun1|]. split; [exact Hrun2|exact Hde2].
Defined.

(** An apple queued beside the three entries and taken back. *)
Lemma enqueue_dequeue_restores_queue_witness :
  queue_ok busy_world /\ room_for_queue busy_world
  /\ (forall e ne, array_of "new_entries" (stored_queue busy_world) = Some ne -> In e ne ->
                   tempId_of e <> Some (JStr (temp_id (clock busy_world))))
  /\ exists t entry' w1 w2,
       OfflineQueue_addEntry apple busy_world = (Ret (JStr t, entry'), w1)
       /\ OfflineQueue_deleteEntry (JStr t) w1 = (Ret tt, w2)
       /\ stored_queue w2 = stored_queue busy_world.
Proof.
  assert (H1 : queue_ok busy_world) by exact busy_world_ok.
  assert (H2 : room_for_queue busy_world) by apply offline_room.
  assert (H3 : forall e ne, array_of "new_entries" (stored_queue busy_world) = Some ne ->
                            In e ne -> tempId_of e <> Some (JStr (temp_id (clock busy_world)))).
  { apply busy_ids_are_not; vm_compute; reflexivity. }
  split; [exact H1|]. split; [exact H2|]. split; [exact H3|].
  exact (enqueue_dequeue_restores_queue busy_world apple H1 H2 H3).
Defined.

(** Nothing stored, nothing pushed. *)
Lemma pushChanges_nothing_to_push_witness :
  queue_ok fresh_world /\ pending (stored_queue fresh_world) = 0%nat
  /\ API_pushChanges fresh_world = (Ret true, fresh_world).
Proof.
  assert (H1 : queue_ok fresh_world) by exact fresh_world_ok.
  assert (H2 : pending (stored_queue fresh_world) = 0%nat) by (vm_compute; reflexivity).
  split; [exact H1|]. split; [exact H2|].
  exact (pushChanges_nothing_to_push fresh_world H1 H2).
Defined.

(** The queue cell holding [null]. *)
Lemma pushChanges_throws_on_misshapen_queue_witness :
  storage null_queue_world !! QUEUE_KEY = Some (Json JNull)
  /\ (JNull = JNull \/ (exists fs, JNull = JObj fs /\ lookup_field "new_entries" fs = None))
  /\ API_pushChanges null_queue_world = (Throw TypeError, null_queue_world).
Proof.
  assert (H1 : storage null_queue_world !! QUEUE_KEY = Some (Json JNull))
    by (vm_compute; reflexivity).
  assert (H2 : JNull = JNull
               \/ (exists fs, JNull = JObj fs /\ lookup_field "new_entries" fs = None))
    by (left; reflexivity).
  split; [exact H1|]. split; [exact H2|].
  exact (pushChanges_throws_on_misshapen_queue null_queue_world JNull H1 H2).
Defined.

(** An apple created by the gateway. *)
Lemma addEntry_online_returns_created_witness :
  created serving_world apple = Some (Some created_apple)
  /\ fst (API_addEntry apple serving_world) = Ret (Some created_apple, apple)
  /\ storage (snd (API_addEntry apple serving_world)) = storage serving_world.
Proof.
  assert (H1 : created serving_world apple = Some (Some created_apple)) by reflexivity.
  split; [exact H1|].
  rewrite (addEntry_online_returns_created serving_world apple (Some created_apple) H1).
  split; reflexivity.
Defined.

(** A pear added as a product while off line. *)
Lemma addProduct_offline_provisional_witness :
  queue_ok fresh_world /\ room_for_queue fresh_world /\ created_product fresh_world pear = None
  /\ exists w',
       API_addProduct pear fresh_world
       = (Ret (Some (JObj [("product", JStr "pear"); ("weight", JNum 80);
                           ("_tempId", JStr "temp_1700000000000");
                           ("id", JStr "temp_1700000000000"); ("_offline", JBool true)]),
               [("product", JStr "pear"); ("weight", JNum 80);
                ("_tempId", JStr "temp_1700000000000")]), w')
       /\ array_of "new_products" (stored_queue w')
          = Some [JObj [("product", JStr "pear"); ("weight", JNum 80);
                        ("_tempId", JStr "temp_1700000000000")]].
Proof.
  assert (H1 : queue_ok fresh_world) by exact fresh_world_ok.
  assert (H2 : room_for_queue fresh_world) by apply offline_room.
  assert (H3 : created_product fresh_world pear = None) by reflexivity.
  split; [exact H1|]. split; [exact H2|]. split; [exact H3|].
  destruct (addProduct_offline_provisional fresh_world pear H1 H2 H3)
    as (w' & np & Hrun & _ & _ & _ & _ & Hnp & Hnp' & _).
  assert (E : array_of "new_products" (stored_queue fresh_world) = Some [])
    by (vm_compute; reflexivity).
  rewrite E in Hnp. injection Hnp as <-.
  exists w'. split; [exact Hrun|exact Hnp'].
Defined.

(** A pear created by the gateway. *)
Lemma addProduct_online_returns_created_witness :
  created_product serving_world pear = Some (Some created_pear)
  /\ fst (API_addProduct pear serving_world) = Ret (Some created_pear, pear)
  /\ storage (snd (API_addProduct pear serving_world)) = storage serving_world.
Proof.
  assert (H1 : created_product serving_world pear = Some (Some created_pear)) by reflexivity.
  split; [exact H1|].
  rewrite (addProduct_online_returns_created serving_world pear (Some created_pear) H1).
  split; reflexivity.
Defined.

(** An apple added while only the push gets through, then pushed. *)
Lemma offline_entry_is_pushed_then_cleared_witness :
  queue_ok flaky_world /\ room_for_queue flaky_world /\ created flaky_world apple = None
  /\ exists r w1 w2,
       API_addEntry apple flaky_world = (Ret r, w1)
       /\ array_of "new_entries" (stored_queue w1)
          = Some [queued "temp_123" apple; queued "temp_456" pear; queued "temp_123" pear;
                  queued "temp_1700000000000" apple]
       /\ API_pushChanges w1 = (Ret true, w2)
       /\ pending (stored_queue w2) = 0%nat.
Proof.
  assert (H1 : queue_ok flaky_world) by exact flaky_world_ok.
  assert (H2 : room_for_queue flaky_world) by exact flaky_world_room.
  assert (H3 : created flaky_world apple = None) by reflexivity.
  split; [exact H1|]. split; [exact H2|]. split; [exact H3|].
  destruct (offline_entry_is_pushed_then_cleared flaky_world apple H1 H2 H3)
    as (r & w1 & w2 & ne & Hadd & Hne & _ & Hne1 & Hpush & _ & Hclear).
  assert (E : array_of "new_entries" (stored_queue flaky_world)
              = Some [queued "temp_123" apple; queued "temp_456" pear; queued "temp_123" pear])
    by (vm_compute; reflexivity).
  rewrite E in Hne. injection Hne as <-.
  assert (Hacc : push_accepted w1 = true).
  { assert (Ew : snd (API_addEntry apple flaky_world) = w1) by (rewrite Hadd; reflexivity).
    rewrite <- Ew. vm_compute. reflexivity. }
  rewrite Hacc in Hpush.
  exists r, w1, w2. split; [exact Hadd|]. split; [exact Hne1|]. split; [exact Hpush|].
  exact (proj1 (Hclear Hacc)).
Defined.



(** An apple queued while the push of the busy queue is in flight. *)
Lemma entry_queued_during_push_is_dropped_witness :
  queue_ok (answering true) /\ room_for_queue (answering true)
  /\ pending (stored_queue (answering true)) <> 0%nat
  /\ push_accepted (answering true) = true
  /\ exists reply w1 t entry' w2 w3,
       pushChanges_begin (answering true) = (Ret (PushWaiting reply), w1)
       /\ OfflineQueue_addEntry apple w1 = (Ret (JStr t, entry'), w2)
       /\ array_of "new_entries" (stored_queue w2)
          = Some [queued "temp_123" apple; queued "temp_456" pear; queued "temp_123" pear;
                  JObj entry']
       /\ pushChanges_resume reply w2 = (Ret true, w3)
       /\ sent w3 = [push_request busy_world]
       /\ OfflineQueue_get w3 = (Ret empty_queue, w3).
Proof.
  assert (H1 : queue_ok (answering true)) by apply answering_ok.
  assert (H2 : room_for_queue (answering true)) by (intros t; reflexivity).
  assert (H3 : pending (stored_queue (answering true)) <> 0%nat) by (vm_compute; discriminate).
  assert (H4 : push_accepted (answering true) = true) by reflexivity.
  split; [exact H1|]. split; [exact H2|]. split; [exact H3|]. split; [exact H4|].
  destruct (entry_queued_during_push_is_dropped (answering true) apple H1 H2 H3 H4)
    as (reply & w1 & t & entry' & w2 & w3 & ne & Hb & _ & Hne & _ & Hadd & Hne2 & Hres & Hsent & Hget).
  assert (E : array_of "new_entries" (stored_queue (answering true))
              = Some [queued "temp_123" apple; queued "temp_456" pear; queued "temp_123" pear])
    by (vm_compute; reflexivity).
  rewrite E in Hne. injection Hne as <-.
  exists reply, w1, t, entry', w2, w3.
  split; [exact Hb|]. split; [exact Hadd|]. split; [exact Hne2|]. split; [exact Hres|].
  split; [exact Hsent|exact Hget].
Defined.

